(** * istat for NTFS: a shallow embedding of the MFT entry decoder

    The development follows [hw5utils.py] and [istat_ntfs.py].  Python
    [bytes] values are lists of [Byte.byte]; Python integers are [Z];
    raised exceptions are values of [exn] carried by [result]; the two
    [while] loops are iterated over an explicit number of rounds, with
    [None] standing for "the loop has not finished yet". *)

From Stdlib Require Import ZArith List Lia Bool String Ascii.
From Stdlib Require Import Strings.Byte DecimalString.
From Stdlib Require Import HexadecimalString.
From Stdlib Require Import Floats.SpecFloat.
Import ListNotations.
Local Open Scope Z_scope.

(** ** Python values and exceptions *)

Module Py.

Definition bytes := list byte.

Inductive exn : Type :=
| AssertionError
| IndexError
| ValueError
| OverflowError
| MemoryError
| ZeroDivisionError
| UnicodeDecodeError.

Inductive result (A : Type) : Type :=
| Ok (a : A)
| Raise (e : exn).
Arguments Ok {A} a.
Arguments Raise {A} e.

Definition bind {A B : Type} (r : result A) (k : A -> result B) : result B :=
  match r with
  | Ok a => k a
  | Raise e => Raise e
  end.

Notation "x <- r ;; k" := (bind r (fun x => k))
  (at level 61, r at next level, right associativity).

(** The value of one byte, [0 .. 255]. *)
Definition byte_val (b : byte) : Z := Z.of_N (Byte.to_N b).

(** [len(data)]. *)
Definition len {A : Type} (data : list A) : Z := Z.of_nat (List.length data).

(** How a slice bound is clamped: a negative bound counts from the end,
    and the result is kept inside [0 .. len]. *)
Definition clamp (n i : Z) : Z :=
  if i <? 0 then Z.max (i + n) 0 else Z.min i n.

(** [data[i:j]]: never raises. *)
Definition slice {A : Type} (data : list A) (i j : Z) : list A :=
  let lo := clamp (len data) i in
  let hi := clamp (len data) j in
  firstn (Z.to_nat (hi - lo)) (skipn (Z.to_nat lo) data).

(** [data[:j]]. *)
Definition slice_to {A : Type} (data : list A) (j : Z) : list A :=
  slice data 0 j.

(** [data[i]]: raises [IndexError] out of range; a negative index counts
    from the end. *)
Definition index {A : Type} (data : list A) (i : Z) : result A :=
  let k := if i <? 0 then i + len data else i in
  if k <? 0 then Raise IndexError
  else match nth_error data (Z.to_nat k) with
       | Some a => Ok a
       | None => Raise IndexError
       end.

(** The items of [range(a, b)], in order. *)
Definition range (a b : Z) : list Z :=
  map (fun k => a + Z.of_nat k) (seq 0 (Z.to_nat (b - a))).

(** [sys.maxsize], the largest length a container can have (64-bit
    interpreter). *)
Definition sys_maxsize : Z := 2 ^ 63 - 1.

(** [list(range(a, b))].  The length of the range must fit [sys.maxsize]
    ([OverflowError] otherwise), and a list of more than [sys.maxsize / 8]
    items cannot be allocated whatever the host ([MemoryError]: its
    storage, 8 bytes per item, would itself pass [sys.maxsize]).  Whether
    a shorter list fits the memory of the host is not part of the model:
    the list is then taken to be built. *)
Definition list_range (a b : Z) : result (list Z) :=
  if sys_maxsize <? b - a then Raise OverflowError
  else if sys_maxsize / 8 <? b - a then Raise MemoryError
  else Ok (range a b).

(** [int.from_bytes(data, "little", signed=False)]. *)
Fixpoint from_bytes_little (data : bytes) : Z :=
  match data with
  | [] => 0
  | b :: rest => byte_val b + 256 * from_bytes_little rest
  end.

(** [int.from_bytes(data, "little", signed=True)]: two's complement over
    the [8 * len(data)] bits read. *)
Definition from_bytes_little_signed (data : bytes) : Z :=
  let u := from_bytes_little data in
  let bits := 8 * len data in
  if (0 <? bits) && (2 ^ (bits - 1) <=? u) then u - 2 ^ bits else u.

End Py.
Import Py.

(** ** hw5utils.py *)

(** [unpack(data, signed=False, byteorder="little")]; every call site
    keeps the default byte order. *)
Definition unpack (data : bytes) (signed : bool) : Z :=
  if signed then from_bytes_little_signed data else from_bytes_little data.

(** ** Text helpers used by the run-list decoder *)

(** Binary digits of a positive number, most significant first. *)
Fixpoint bin_digits (p : positive) : string :=
  match p with
  | xH => "1"
  | xO q => bin_digits q ++ "0"
  | xI q => bin_digits q ++ "1"
  end%string.

Fixpoint zeros (n : nat) : string :=
  match n with
  | O => EmptyString
  | S k => String "0" (zeros k)
  end.

Definition zfill (width : nat) (s : string) : string :=
  (zeros (width - String.length s) ++ s)%string.

(** [format(x, "08b")]: at least eight characters, zero padded, the sign
    counted in the width. *)
Definition format_08b (x : Z) : string :=
  match x with
  | Z0 => zfill 8 "0"
  | Zpos p => zfill 8 (bin_digits p)
  | Zneg p => String "-" (zfill 7 (bin_digits p))
  end.

(** [s[i:j]] on text, for the non-negative bounds the decoder uses. *)
Definition str_slice (s : string) (i j : nat) : string :=
  substring i (j - i) s.

Fixpoint int_base2_digits (acc : Z) (s : string) : result Z :=
  match s with
  | EmptyString => Ok acc
  | String "0" rest => int_base2_digits (2 * acc) rest
  | String "1" rest => int_base2_digits (2 * acc + 1) rest
  | String _ _ => Raise ValueError
  end.

(** [int(s, 2)] on a text of binary digits; the empty text and any other
    character raise [ValueError].  (The decoder passes four binary digits
    only, see [nibbles_of_byte].) *)
Definition int_base2 (s : string) : result Z :=
  match s with
  | EmptyString => Raise ValueError
  | _ => int_base2_digits 0 s
  end.

(** ** istat_ntfs.py: the $DATA attribute *)

Module data_dict.
Record t : Type := Build
  { type : Z;
    size : Z;
    init_size : option Z;
    sector_list : option (list Z) }.
End data_dict.

(** One round of the [while first_byte != 0] loop of [parse_data_attr]:
    the state is [(runlist_offset, first_byte, prev_first_cluster,
    sector_list)]. *)
Definition run_state : Type := (Z * Z * Z * list Z)%type.

Definition run_body (attribute : bytes) (st : run_state) : result run_state :=
  let '(runlist_offset, _, prev_first_cluster, sector_list) := st in
  let first_nibble :=
    str_slice (format_08b (unpack (slice attribute runlist_offset (runlist_offset + 1)) false)) 0 4 in
  let second_nibble :=
    str_slice (format_08b (unpack (slice attribute runlist_offset (runlist_offset + 1)) false)) 4 8 in
  offset_nibble <- int_base2 first_nibble ;;
  run_length_nibble <- int_base2 second_nibble ;;
  let byte_offset := runlist_offset + run_length_nibble + 1 in
  let length := unpack (slice attribute (runlist_offset + 1) byte_offset) true in
  let cluster := unpack (slice attribute byte_offset (byte_offset + offset_nibble)) true in
  let prev_first_cluster := prev_first_cluster + cluster in
  curr_sec_list <- list_range prev_first_cluster (prev_first_cluster + length) ;;
  let sector_list := sector_list ++ curr_sec_list in
  let runlist_offset := byte_offset + offset_nibble in
  first_byte <- index attribute runlist_offset ;;
  Ok (runlist_offset, byte_val first_byte, prev_first_cluster, sector_list).

(** The loop itself, run for at most [fuel] rounds.  [None]: the loop is
    still running after [fuel] rounds. *)
Fixpoint run_loop (fuel : nat) (attribute : bytes) (st : run_state)
  : option (result (list Z)) :=
  let '(_, first_byte, _, sector_list) := st in
  if first_byte =? 0 then Some (Ok sector_list)
  else match fuel with
       | O => None
       | S fuel' =>
         match run_body attribute st with
         | Ok st' => run_loop fuel' attribute st'
         | Raise e => Some (Raise e)
         end
       end.

(** The body of [parse_data_attr] after the attribute has been located. *)
Definition parse_data_of (fuel : nat) (attribute : bytes)
  : option (result data_dict.t) :=
  match index attribute 8 with
  | Raise e => Some (Raise e)
  | Ok non_res_flag =>
    if byte_val non_res_flag =? 0 then
      Some (Ok (data_dict.Build 0x80 (unpack (slice attribute 16 20) false) None None))
    else
      let size := unpack (slice attribute 48 56) false in
      let init_size := unpack (slice attribute 56 63) false in
      let runlist_offset := unpack (slice attribute 32 34) false in
      match index attribute runlist_offset with
      | Raise e => Some (Raise e)
      | Ok first_byte =>
        match run_loop fuel attribute (runlist_offset, byte_val first_byte, 0, []) with
        | None => None
        | Some (Raise e) => Some (Raise e)
        | Some (Ok sector_list) =>
          Some (Ok (data_dict.Build 0x80 size (Some init_size) (Some sector_list)))
        end
      end
  end.

(** ** hw5utils.py: the attribute walker *)

(** State of the [while] loop of [get_attr_by_id]:
    [(attr_full_entry, curr_attr_end, prev_attr_end)]. *)
Definition walk_state : Type := (bytes * Z * Z)%type.

Definition walk_body (entry : bytes) (st : walk_state) : walk_state :=
  let '(_, _, prev_attr_end) := st in
  let attr_start := prev_attr_end in
  let length := unpack (slice entry (attr_start + 4) (attr_start + 8)) false in
  let curr_attr_end := attr_start + length in
  let attr_full_entry := slice entry attr_start curr_attr_end in
  let prev_attr_end := curr_attr_end in
  (attr_full_entry, curr_attr_end, prev_attr_end).

(** The loop test, [unpack(attr_full_entry[:4]) != attr_id]. *)
Definition walk_test (attr_id : Z) (st : walk_state) : bool :=
  let '(attr_full_entry, _, _) := st in
  negb (unpack (slice_to attr_full_entry 4) false =? attr_id).

Fixpoint walk_loop (fuel : nat) (attr_id : Z) (entry : bytes) (st : walk_state)
  : option (bytes * Z) :=
  if walk_test attr_id st then
    match fuel with
    | O => None
    | S fuel' => walk_loop fuel' attr_id entry (walk_body entry st)
    end
  else let '(attr_full_entry, curr_attr_end, _) := st in
       Some (attr_full_entry, curr_attr_end).

(** [get_attr_by_id(attr_id, entry, prev_attr_end)], run for at most
    [fuel] rounds of its loop.  No statement of the function can raise:
    slices are clamped and [unpack] accepts any bytes.  [None]: the loop
    is still running after [fuel] rounds. *)
Definition get_attr_by_id (fuel : nat) (attr_id : Z) (entry : bytes) (prev_attr_end : Z)
  : option (bytes * Z) :=
  let attr_full_entry := [x00; x00; x00; x00] in
  let curr_attr_end := prev_attr_end in
  walk_loop fuel attr_id entry (attr_full_entry, curr_attr_end, prev_attr_end).

(** ** hw5utils.py: the fixup array *)

Fixpoint bytes_eqb (a b : bytes) : bool :=
  match a, b with
  | [], [] => true
  | x :: a', y :: b' => Byte.eqb x y && bytes_eqb a' b'
  | _, _ => false
  end.

(** [b"FILE"]. *)
Definition FILE : bytes := [x46; x49; x4c; x45].

Definition apply_fixup (entry : bytes) : result bytes :=
  if negb (bytes_eqb (slice entry 0 4) FILE) then Raise AssertionError
  else
    let fixup := from_bytes_little (slice entry 4 6) in
    let num_fixup_entries := from_bytes_little (slice entry 6 8) in
    let fixuprepl := slice entry (fixup + 2) (fixup + 2 * num_fixup_entries) in
    Ok (slice_to entry 510 ++ slice fixuprepl 0 2 ++ slice entry 512 1022 ++ slice fixuprepl 2 4).

(** ** istat_ntfs.py: the entry header *)

Module header_dict.
Record t : Type := Build
  { address : Z;
    sequence : Z;
    logfile_seq_num : Z;
    links : Z;
    allocated : bool }.
End header_dict.

Definition parse_entry_header (address : Z) (entry : bytes) : header_dict.t :=
  let sequence := unpack (slice entry 16 18) false in
  let logfile_seq_num := unpack (slice entry 8 16) false in
  let links := unpack (slice entry 18 20) false in
  let flag := unpack (slice entry 22 24) false in
  header_dict.Build address sequence logfile_seq_num links (negb (flag =? 0)).

(** [parse_data_attr(entry, prev_attr_end)]: locate attribute [0x80], then
    decode it.  [fuel] bounds the rounds of either loop. *)
Definition parse_data_attr (fuel : nat) (entry : bytes) (prev_attr_end : Z)
  : option (result data_dict.t) :=
  match get_attr_by_id fuel 0x80 entry prev_attr_end with
  | None => None
  | Some (attribute, _) => parse_data_of fuel attribute
  end.

(** ** hw5utils.py: timestamps *)

(** [header_length = 24], the constant of [parse_time]. *)
Definition header_length : Z := 24.

(** The integer [time_value] that [parse_time] reads before formatting:
    [int.from_bytes(attribute[header_length + index_range[0] :
    header_length + index_range[1]], "little", signed=False)]. *)
Definition time_value (attribute : bytes) (index_range : Z * Z) : Z :=
  from_bytes_little
    (slice attribute (header_length + fst index_range) (header_length + snd index_range)).

(** [fraction = windows_timestamp % 10000000]. *)
Definition fraction_of (windows_timestamp : Z) : Z := windows_timestamp mod 10000000.

(** ["{:07d}"] on a non-negative number. *)
Definition format_07d (n : Z) : string :=
  zfill 7 (DecimalString.NilZero.string_of_uint (N.to_uint (Z.to_N n))).

Module std_info_dict.
Record t : Type := Build
  { created : string;
    modified : string;
    mft_modified : string;
    accessed : string;
    flags : Z;
    std_info_size : Z;
    std_info_end : Z }.
End std_info_dict.

Module file_name_dict.
Record t : Type := Build
  { parent : Z;
    sequence : Z;
    allocated_size : Z;
    actual_size : Z;
    created : string;
    modified : string;
    mft_modified : string;
    accessed : string;
    flags : Z;
    file_name_size : Z;
    name : string;
    file_name_end : Z }.
End file_name_dict.

(** The calendar part of [_localtime_string] goes through Python's
    floating-point division, [datetime.fromtimestamp] (which depends on
    the host's time zone) and [strftime]; the text codec is the
    interpreter's.  The repository's code is written over them here;
    the interpreter's division, [int] and [fromtimestamp] themselves are
    given in [binary64] below. *)
Section Formatting.

Variable float : Type.
(** [a / b] on integers. *)
Variable true_div : Z -> Z -> result float.
(** [int(x)]. *)
Variable int_of_float : float -> result Z.
Variable datetime : Type.
(** [datetime.datetime.fromtimestamp(x)]. *)
Variable fromtimestamp : float -> result datetime.
(** [datetime.datetime(1970, 1, 1) + datetime.timedelta(seconds=n)]. *)
Variable epoch_plus_seconds : Z -> result datetime.
(** [dt.strftime("%Y-%m-%d %H:%M:%S")]. *)
Variable strftime_hms : datetime -> string.
(** [data.decode("utf-16-le")]. *)
Variable decode_utf_16_le : bytes -> result string.

Definition _localtime_string (windows_timestamp : Z) : result string :=
  epoch_ts <- true_div (windows_timestamp - 116444736000000000) 10000000 ;;
  dt <- (if 0 <? windows_timestamp then fromtimestamp epoch_ts
         else seconds <- int_of_float epoch_ts ;; epoch_plus_seconds seconds) ;;
  let hms := strftime_hms dt in
  let fraction := fraction_of windows_timestamp in
  Ok (hms ++ "." ++ format_07d fraction ++ "00 (EDT)")%string.

Definition parse_time (attribute : bytes) (index_range : Z * Z) : result string :=
  _localtime_string (time_value attribute index_range).

(** What [parse_std_info_attr] does once the attribute is located. *)
Definition parse_std_info_of (attribute : bytes) (std_info_end : Z)
  : result std_info_dict.t :=
  let content_offset := unpack (slice attribute 20 22) false in
  let content := slice attribute content_offset (std_info_end + 1) in
  created <- parse_time attribute (0, 8) ;;
  modified <- parse_time attribute (8, 16) ;;
  mft_modified <- parse_time attribute (16, 24) ;;
  accessed <- parse_time attribute (24, 32) ;;
  let flags := unpack (slice content 32 36) false in
  let std_info_size := unpack (slice attribute 16 20) false in
  Ok (std_info_dict.Build created modified mft_modified accessed
        flags std_info_size std_info_end).

(** [parse_std_info_attr(entry, entry_start)]; the caller's default for
    [entry_start] is [0x38]. *)
Definition parse_std_info_attr (fuel : nat) (entry : bytes) (entry_start : Z)
  : option (result std_info_dict.t) :=
  match get_attr_by_id fuel 0x10 entry entry_start with
  | None => None
  | Some (attribute, std_info_end) => Some (parse_std_info_of attribute std_info_end)
  end.

(** What [parse_file_name_attr] does once the attribute is located. *)
Definition parse_file_name_of (attribute : bytes) (file_name_end : Z)
  : result file_name_dict.t :=
  let content_offset := unpack (slice attribute 20 22) false in
  let content := slice attribute content_offset (file_name_end + 1) in
  let parent := unpack (slice content 0 6) false in
  let sequence := unpack (slice content 6 8) false in
  let allocated_size := unpack (slice content 40 48) false in
  let actual_size := unpack (slice content 48 56) false in
  created <- parse_time attribute (8, 16) ;;
  modified <- parse_time attribute (16, 24) ;;
  mft_modified <- parse_time attribute (24, 32) ;;
  accessed <- parse_time attribute (32, 40) ;;
  let flags := unpack (slice content 56 60) false in
  let file_name_size := unpack (slice attribute 16 20) false in
  name_len <- index content 64 ;;
  name <- decode_utf_16_le (slice content 66 (66 + byte_val name_len * 2)) ;;
  Ok (file_name_dict.Build parent sequence allocated_size actual_size
        created modified mft_modified accessed flags file_name_size name file_name_end).

Definition parse_file_name_attr (fuel : nat) (entry : bytes) (prev_entry_end : Z)
  : option (result file_name_dict.t) :=
  match get_attr_by_id fuel 0x30 entry prev_entry_end with
  | None => None
  | Some (attribute, file_name_end) => Some (parse_file_name_of attribute file_name_end)
  end.

End Formatting.

(** ** hw5utils.py: the report helpers *)

(** The functions below can also fail with exceptions that the decoder
    itself never raises. *)
Inductive any_exn : Type :=
| Builtin (e : exn)
| KeyError
| OSError.

Inductive outcome (A : Type) : Type :=
| Return (a : A)
| Throw (e : any_exn).
Arguments Return {A} a.
Arguments Throw {A} e.

Definition lift {A : Type} (r : result A) : outcome A :=
  match r with
  | Ok a => Return a
  | Raise e => Throw (Builtin e)
  end.



(** [hex(n)]: lower-case digits after [0x], the sign in front. *)
Definition hex (n : Z) : string :=
  match n with
  | Zneg p => "-0x" ++ HexadecimalString.NilZero.string_of_uint (Pos.to_hex_uint p)
  | _ => "0x" ++ HexadecimalString.NilZero.string_of_uint (N.to_hex_uint (Z.to_N n))
  end%string.






(** [flag_dump(value)]. *)
Definition flag_dump (value : Z) : string :=
  let string := EmptyString in
  let string := if Z.land value 0x0001 =? 0 then string else (string ++ "Read Only ")%string in
  let string := if Z.land value 0x0002 =? 0 then string else (string ++ "Hidden ")%string in
  let string := if Z.land value 0x0004 =? 0 then string else (string ++ "System ")%string in
  let string := if Z.land value 0x0020 =? 0 then string else (string ++ "Archive ")%string in
  let string := if Z.land value 0x0040 =? 0 then string else (string ++ "Device ")%string in
  let string := if Z.land value 0x0080 =? 0 then string else (string ++ "Normal ")%string in
  let string := if Z.land value 0x0100 =? 0 then string else (string ++ "Temporary ")%string in
  let string := if Z.land value 0x0200 =? 0 then string else (string ++ "Sparse file ")%string in
  let string := if Z.land value 0x0400 =? 0 then string else (string ++ "Reparse point ")%string in
  let string := if Z.land value 0x0800 =? 0 then string else (string ++ "Compressed ")%string in
  let string := if Z.land value 0x1000 =? 0 then string else (string ++ "Offline ")%string in
  let string := if Z.land value 0x2000 =? 0 then string else (string ++ "Not indexed ")%string in
  let string := if Z.land value 0x4000 =? 0 then string else (string ++ "Encrypted ")%string in
  if String.eqb string EmptyString then (hex value ++ " (Unknown flag)")%string
  else string.

(** ** istat_ntfs.py: the cluster rows of the report *)


(** ** istat_ntfs.py: the image file and the entry assembler *)

(** The binary file object: its bytes, its position, and the largest
    offset that the host's file system accepts for it (a property of the
    host, fixed for the life of the object). *)
Module file_obj.
Record t : Type := Build
  { data : bytes;
    position : Z;
    max_offset : Z }.
End file_obj.

(** [file.seek(offset)] on a file opened by [open(path, "rb")].  An
    offset inside the file is accepted.  Any other offset must fit a
    signed 64-bit integer ([ValueError] otherwise); it is then refused by
    the host with [OSError] when it is negative or beyond the largest
    offset the file system accepts, and accepted otherwise, also past the
    end of the file.  (A file is shorter than [2 ^ 63] bytes, so for a
    file that can exist the first test never hides the second.) *)
Definition seek (file : file_obj.t) (offset : Z) : outcome file_obj.t :=
  let moved :=
    file_obj.Build (file_obj.data file) offset (file_obj.max_offset file) in
  if (0 <=? offset) && (offset <=? len (file_obj.data file)) then Return moved
  else if (offset <? - 2 ^ 63) || (2 ^ 63 - 1 <? offset) then Throw (Builtin ValueError)
  else if (offset <? 0) || (file_obj.max_offset file <? offset) then Throw OSError
  else Return moved.

(** [file.read(size)] for [size >= 0]: the bytes from the position on,
    at most [size] of them, and the position moved past them. *)
Definition read (file : file_obj.t) (size : Z) : bytes * file_obj.t :=
  let chunk :=
    slice (file_obj.data file) (file_obj.position file) (file_obj.position file + size) in
  (chunk, file_obj.Build (file_obj.data file) (file_obj.position file + len chunk)
            (file_obj.max_offset file)).

Module ParseMFT.
Record t : Type := Build
  { file : file_obj.t;
    bytes_per_entry : Z;
    mft_byte_offset : Z }.
End ParseMFT.

(** [ParseMFT.__init__(self, file)]. *)
Definition ParseMFT_init (file : file_obj.t) : outcome ParseMFT.t :=
  match seek file 0 with
  | Throw e => Throw e
  | Return file =>
    let '(boot, file) := read file 512 in
    let bytes_per_sector := unpack (slice boot 11 13) false in
    let sectors_per_cluster := unpack (slice boot 13 14) false in
    let mft_start := unpack (slice boot 48 56) false in
    Return (ParseMFT.Build file 1024 (mft_start * sectors_per_cluster * bytes_per_sector))
  end.

Module mft_entry_dict.
Record t : Type := Build
  { header : header_dict.t;
    std_info : std_info_dict.t;
    file_name : file_name_dict.t;
    data : data_dict.t }.
End mft_entry_dict.

Section Assembly.

Variable float : Type.
Variable true_div : Z -> Z -> result float.
Variable int_of_float : float -> result Z.
Variable datetime : Type.
Variable fromtimestamp : float -> result datetime.
Variable epoch_plus_seconds : Z -> result datetime.
Variable strftime_hms : datetime -> string.
Variable decode_utf_16_le : bytes -> result string.

(** What [istat_entry] does with the entry once it is read. *)
Definition decode_entry (fuel : nat) (address : Z) (entry : bytes)
  : option (outcome mft_entry_dict.t) :=
  match apply_fixup entry with
  | Raise e => Some (Throw (Builtin e))
  | Ok entry =>
    let header := parse_entry_header address entry in
    match parse_std_info_attr float true_div int_of_float datetime fromtimestamp
            epoch_plus_seconds strftime_hms fuel entry 0x38 with
    | None => None
    | Some (Raise e) => Some (Throw (Builtin e))
    | Some (Ok std_info) =>
      match parse_file_name_attr float true_div int_of_float datetime fromtimestamp
              epoch_plus_seconds strftime_hms decode_utf_16_le fuel entry
              (std_info_dict.std_info_end std_info) with
      | None => None
      | Some (Raise e) => Some (Throw (Builtin e))
      | Some (Ok file_name) =>
        match parse_data_attr fuel entry (file_name_dict.file_name_end file_name) with
        | None => None
        | Some (Raise e) => Some (Throw (Builtin e))
        | Some (Ok data) =>
          Some (Return (mft_entry_dict.Build header std_info file_name data))
        end
      end
    end
  end.


End Assembly.

(** ** Definitions used to state the properties *)

(** What one round does, in terms of the header byte [h] at
    [runlist_offset]: the low nibble counts the length bytes, the high
    nibble the offset bytes, and both fields are read as signed. *)
Definition run_step (attribute : bytes) (h : byte) (runlist_offset prev_first_cluster : Z)
  (sector_list : list Z) : result run_state :=
  let offset_nibble := byte_val h / 16 in
  let run_length_nibble := byte_val h mod 16 in
  let byte_offset := runlist_offset + run_length_nibble + 1 in
  let length := from_bytes_little_signed (slice attribute (runlist_offset + 1) byte_offset) in
  let cluster :=
    from_bytes_little_signed (slice attribute byte_offset (byte_offset + offset_nibble)) in
  curr_sec_list <-
    list_range (prev_first_cluster + cluster) (prev_first_cluster + cluster + length) ;;
  first_byte <- index attribute (byte_offset + offset_nibble) ;;
  Ok (byte_offset + offset_nibble, byte_val first_byte, prev_first_cluster + cluster,
      sector_list ++ curr_sec_list).

(** The two fields that [apply_fixup] reads from the entry header. *)
Definition fixup_offset (entry : bytes) : Z := from_bytes_little (slice entry 4 6).
Definition fixup_count (entry : bytes) : Z := from_bytes_little (slice entry 6 8).

(** A valid 1024-byte entry: the signature, an update-sequence number
    followed by one pair per 512-byte sector (so at least three 2-byte
    items), and a fixup array that lies inside the entry. *)
Definition valid_entry (entry : bytes) : Prop :=
  len entry = 1024
  /\ slice entry 0 4 = FILE
  /\ 3 <= fixup_count entry
  /\ fixup_offset entry + 2 * fixup_count entry <= 1024.

(** [content = attribute[content_offset : attr_end + 1]], the slice that
    [parse_std_info_attr] and [parse_file_name_attr] take their other
    fields from. *)
Definition content_of (attribute : bytes) (attr_end : Z) : bytes :=
  slice attribute (unpack (slice attribute 20 22) false) (attr_end + 1).

(** ** Sample entries and attributes *)

(** A 64-byte header of a non-resident, unnamed $DATA attribute of 72
    bytes: non-resident flag 1 at byte 8, run-list offset 0x40 at bytes
    32-33, the three sizes at 40, 48 and 56. *)
Definition nonresident_header : bytes :=
  [x80; x00; x00; x00;  x48; x00; x00; x00;  x01; x00; x40; x00;  x00; x00; x01; x00;
   x00; x00; x00; x00;  x00; x00; x00; x00;  x2f; x00; x00; x00;  x00; x00; x00; x00;
   x40; x00; x00; x00;  x00; x00; x00; x00;  x00; x00; x03; x00;  x00; x00; x00; x00;
   x00; x00; x03; x00;  x00; x00; x00; x00;  x00; x00; x03; x00;  x00; x00; x00; x00].

(** A complete 72-byte $DATA attribute with the run list of C1. *)
Definition data_attr_single_run : bytes :=
  nonresident_header ++ [x11; x30; x10; x00] ++ [x00; x00; x00; x00].

(** The 72-byte $DATA attribute with the two runs of C2. *)
Definition data_attr_two_runs : bytes :=
  nonresident_header ++ [x11; x30; x10; x11; x02; xfb; x00] ++ [x00].

(** A 72-byte $DATA attribute: a run of 3 clusters at cluster 16, then a
    run of 2 clusters with no offset bytes (header [0x01]). *)
Definition data_attr_sparse : bytes :=
  nonresident_header ++ [x11; x03; x10; x01; x02; x00] ++ [x00; x00].

(** A 72-byte $DATA attribute whose single run has the length byte [0x80]. *)
Definition data_attr_long_run : bytes :=
  nonresident_header ++ [x11; x80; x10; x00] ++ [x00; x00; x00; x00].

(** An entry-sized buffer of zero bytes: every length field in it is 0. *)
Definition zero_entry : bytes := repeat x00 1024.

(** A valid entry: signature, fixup array at offset 0x30 with three
    items (update-sequence number 0x0005 and the pairs AA BB and CC DD),
    and the update-sequence number written over both sector tails. *)
Definition fixup_sample_entry : bytes :=
  [x46; x49; x4c; x45; x30; x00; x03; x00] ++ repeat x00 40
  ++ [x05; x00; xaa; xbb; xcc; xdd] ++ repeat x00 456
  ++ [x05; x00] ++ repeat x00 510 ++ [x05; x00].

(** A signed entry that declares no fixup items at all (offset 0,
    count 0). *)
Definition no_fixup_entry : bytes := FILE ++ repeat x00 1020.

(** The entry of a deleted directory: flags [0x0002] at offset 22 (the
    directory bit set, the in-use bit clear), sequence 2, one link. *)
Definition deleted_directory_entry : bytes :=
  [x46; x49; x4c; x45;  x30; x00; x03; x00;  x00; x00; x00; x00;  x00; x00; x00; x00;
   x02; x00; x01; x00;  x38; x00; x02; x00] ++ repeat x00 1000.

(** A resident $STANDARD_INFORMATION attribute of 80 bytes that carries a
    4-character name at offset 24, so that its content starts at offset
    32 (header bytes 20-21).  The created time stored in the content is
    116444736000000000, and the flags at content offset 32 are [0x20]. *)
Definition std_info_named : bytes :=
  [x10; x00; x00; x00;  x50; x00; x00; x00;  x00; x04; x18; x00;  x00; x00; x00; x00;
   x30; x00; x00; x00;  x20; x00; x00; x00;  x24; x00; x41; x00;  x42; x00; x43; x00;
   x00; x80; x3e; xd5;  xde; xb1; x9d; x01;  x00; x80; x3e; xd5;  xde; xb1; x9d; x01;
   x00; x80; x3e; xd5;  xde; xb1; x9d; x01;  x00; x80; x3e; xd5;  xde; xb1; x9d; x01;
   x20; x00; x00; x00;  x00; x00; x00; x00;  x00; x00; x00; x00;  x00; x00; x00; x00].

(** A non-resident $DATA attribute cut short after its only run: no
    terminator byte follows. *)
Definition data_attr_unterminated : bytes :=
  nonresident_header ++ [x11; x30; x10].

(** Two attributes in a row: the named $STANDARD_INFORMATION attribute
    (80 bytes), then the $DATA attribute with a single run (72 bytes). *)
Definition two_attributes : bytes := std_info_named ++ data_attr_single_run.

(** The same entry after correction: the pairs AA BB and CC DD sit in
    the two sector tails. *)
Definition fixed_sample_entry : bytes :=
  [x46; x49; x4c; x45; x30; x00; x03; x00] ++ repeat x00 40
  ++ [x05; x00; xaa; xbb; xcc; xdd] ++ repeat x00 456
  ++ [xaa; xbb] ++ repeat x00 510 ++ [xcc; xdd].

(** A complete 1024-byte MFT entry: header (fixup array at 0x30, first
    attribute at 0x38, flags 1), a $STANDARD_INFORMATION attribute of 72
    bytes, a $FILE_NAME attribute of 96 bytes for the name "abc" in parent
    entry 5, the $DATA attribute with a single run, the end marker, and
    the update-sequence number 0x0005 in both sector tails. *)
Definition sample_mft_entry : bytes :=
  [x46; x49; x4c; x45;  x30; x00; x03; x00;  x34; x12; x00; x00;  x00; x00; x00; x00;
   x01; x00; x01; x00;  x38; x00; x01; x00;  x30; x01; x00; x00;  x00; x04; x00; x00;
   x00; x00; x00; x00;  x00; x00; x00; x00;  x03; x00; x00; x00;  x07; x00; x00; x00;
   x05; x00; x00; x00;  x00; x00; x00; x00]
  ++ [x10; x00; x00; x00;  x48; x00; x00; x00;  x00; x00; x18; x00;  x00; x00; x00; x00;
      x30; x00; x00; x00;  x18; x00; x00; x00;
      x00; x80; x3e; xd5;  xde; xb1; x9d; x01;  x00; x80; x3e; xd5;  xde; xb1; x9d; x01;
      x00; x80; x3e; xd5;  xde; xb1; x9d; x01;  x00; x80; x3e; xd5;  xde; xb1; x9d; x01;
      x20; x00; x00; x00;  x00; x00; x00; x00;  x00; x00; x00; x00;  x00; x00; x00; x00]
  ++ [x30; x00; x00; x00;  x60; x00; x00; x00;  x00; x00; x18; x00;  x00; x00; x01; x00;
      x48; x00; x00; x00;  x18; x00; x01; x00;
      x05; x00; x00; x00;  x00; x00; x05; x00;
      x00; x80; x3e; xd5;  xde; xb1; x9d; x01;  x00; x80; x3e; xd5;  xde; xb1; x9d; x01;
      x00; x80; x3e; xd5;  xde; xb1; x9d; x01;  x00; x80; x3e; xd5;  xde; xb1; x9d; x01;
      x00; x00; x03; x00;  x00; x00; x00; x00;  x00; x00; x03; x00;  x00; x00; x00; x00;
      x20; x00; x00; x00;  x00; x00; x00; x00;  x03; x03;
      x61; x00; x62; x00;  x63; x00]
  ++ data_attr_single_run
  ++ [xff; xff; xff; xff] ++ repeat x00 210 ++ [x05; x00]
  ++ repeat x00 510 ++ [x05; x00].


(** The thirteen bits that [flag_dump] names, and their union [0x7FE7]. *)
Definition flag_table : list (Z * string) :=
  [(0x0001, "Read Only "); (0x0002, "Hidden "); (0x0004, "System ");
   (0x0020, "Archive "); (0x0040, "Device "); (0x0080, "Normal ");
   (0x0100, "Temporary "); (0x0200, "Sparse file "); (0x0400, "Reparse point ");
   (0x0800, "Compressed "); (0x1000, "Offline "); (0x2000, "Not indexed ");
   (0x4000, "Encrypted ")]%string.

Definition known_flags : Z := 0x7FE7.

(** The text [flag_dump] has built when it reaches its last test. *)
Definition flag_names (value : Z) : string :=
  fold_left
    (fun s p => if Z.land value (fst p) =? 0 then s else (s ++ snd p)%string)
    flag_table EmptyString.


(** Walking from [p] and skipping candidates of other types by their
    declared lengths, the search for [attr_id] meets a candidate with a
    declared length of 0 before one of the requested type. *)
Inductive dead_end (attr_id : Z) (entry : bytes) : Z -> Prop :=
| dead_end_here (p : Z) :
    unpack (slice entry (p + 4) (p + 8)) false = 0 ->
    dead_end attr_id entry p
| dead_end_later (p : Z) :
    unpack (slice_to (slice entry p (p + unpack (slice entry (p + 4) (p + 8)) false)) 4) false
    <> attr_id ->
    dead_end attr_id entry (p + unpack (slice entry (p + 4) (p + 8)) false) ->
    dead_end attr_id entry p.

(** An entry body without a $DATA attribute: the named
    $STANDARD_INFORMATION attribute, the end marker, and zero bytes. *)
Definition attributes_without_data : bytes :=
  std_info_named ++ [xff; xff; xff; xff] ++ repeat x00 12.

(** The exceptions that decoding a located attribute can end with: an
    index past the end of the attribute, or a run whose cluster list
    cannot be built. *)
Definition decoder_error (e : exn) : Prop :=
  e = IndexError \/ e = OverflowError \/ e = MemoryError.

(** ** The interpreter's [float] and [datetime.fromtimestamp] *)

(** Python's [float] is IEEE 754 binary64: the Standard Library's
    [spec_float] with a 53-bit mantissa and the infinities at exponent
    1024.  [S754_finite s m e] is the number [m * 2 ^ e], negated when
    [s] is set. *)
Module binary64.

Definition float : Type := spec_float.
Definition prec : Z := 53.
Definition emax : Z := 1024.

(** An integer as an exact operand of a rounding operation. *)
Definition operand (n : Z) : float :=
  match n with
  | Z0 => S754_zero false
  | Zpos m => S754_finite false m 0
  | Zneg m => S754_finite true m 0
  end.

(** [a / b] on integers: the exact quotient, rounded once to the nearest
    [float] with ties to even.  A zero divisor raises
    [ZeroDivisionError]; a quotient that rounds beyond the largest
    [float] raises [OverflowError]. *)
Definition true_div (a b : Z) : result float :=
  if b =? 0 then Raise ZeroDivisionError
  else
    match SFdiv prec emax (operand a) (operand b) with
    | S754_infinity _ => Raise OverflowError
    | quotient => Ok quotient
    end.

(** [int(x)]: [x] without its fractional digits; an infinity raises
    [OverflowError] and a NaN raises [ValueError]. *)
Definition int_of_float (x : float) : result Z :=
  match x with
  | S754_zero _ => Ok 0
  | S754_finite s m e => Ok (cond_Zopp s (Z.shiftl (Zpos m) e))
  | S754_infinity _ => Raise OverflowError
  | S754_nan => Raise ValueError
  end.

(** The fractional part that [math.modf(x)] returns for a finite [x]:
    the digits of [x] below the units, with the sign of [x]. *)
Definition fractional_part (x : float) : float :=
  match x with
  | S754_finite s m e =>
    if 0 <=? e then S754_zero s
    else
      match Zpos m mod 2 ^ (- e) with
      | Zpos rest => S754_finite s rest e
      | _ => S754_zero s
      end
  | _ => x
  end.

(** [round(x)] for a finite [x]: the nearest integer, a tie going to the
    even one. *)
Definition round_half_even (x : float) : Z :=
  match x with
  | S754_finite s m e =>
    if 0 <=? e then cond_Zopp s (Zpos m * 2 ^ e)
    else
      let unit := 2 ^ (- e) in
      let whole := Zpos m / unit in
      let twice_rest := 2 * (Zpos m mod unit) in
      cond_Zopp s
        (if twice_rest <? unit then whole
         else if unit <? twice_rest then whole + 1
         else if Z.even whole then whole else whole + 1)
  | _ => 0
  end.

(** The seconds and microseconds that [datetime.fromtimestamp(t)] hands
    to the host's local-time conversion:
    [frac, t = modf(t); us = round(frac * 1e6)], with [us] brought back
    into [0 .. 999999] by a carry into the seconds.  A NaN raises
    [ValueError], an infinity [OverflowError]. *)
Definition timeval (t : float) : result (Z * Z) :=
  seconds <- int_of_float t ;;
  let us := round_half_even (SFmul prec emax (fractional_part t) (operand 1000000)) in
  if 1000000 <=? us then Ok (seconds + 1, us - 1000000)
  else if us <? 0 then Ok (seconds - 1, us + 1000000)
  else Ok (seconds, us).

(** [datetime.datetime.fromtimestamp(t)] on a host whose conversion of
    [seconds] and [us] after the Unix epoch to a local [datetime] is
    [localtime]; that conversion is also where a time outside the host's
    or [datetime]'s range is refused. *)
Definition fromtimestamp {datetime : Type} (localtime : Z -> Z -> result datetime)
    (t : float) : result datetime :=
  tv <- timeval t ;;
  localtime (fst tv) (snd tv).

End binary64.

(** Attributes whose first timestamp, at bytes 24 to 31, is 0.9999999 s
    after the Unix epoch, 0.9999999 s after 2020-09-13 12:26:40 UTC, and
    zero. *)
Definition time_attr_end_of_second : bytes :=
  repeat x00 24 ++ [x7f; x16; xd7; xd5; xde; xb1; x9d; x01].

Definition time_attr_2020 : bytes :=
  repeat x00 24 ++ [x7f; x16; x3f; x22; xc9; x89; xd6; x01].

Definition time_attr_zero : bytes := repeat x00 32.

(** * Properties *)

(** ** Slices, indexing and byte values *)

Lemma len_nonneg {A : Type} (l : list A) : 0 <= len l.
Proof. unfold len; lia. Qed.

Lemma len_app {A : Type} (l1 l2 : list A) : len (l1 ++ l2) = len l1 + len l2.
Proof. unfold len; rewrite length_app; lia. Qed.

Lemma byte_val_range (b : byte) : 0 <= byte_val b < 256.
Proof.
  unfold byte_val. pose proof (Byte.to_N_bounded b) as H.
  lia.
Qed.

Lemma clamp_inside (n i : Z) : 0 <= i <= n -> clamp n i = i.
Proof.
  intros H. unfold clamp. destruct (Z.ltb_spec i 0); lia.
Qed.

(** A slice taken inside the middle part of a buffer only sees that part. *)
Lemma slice_in_app {A : Type} (pre mid post : list A) (i j : Z) :
  0 <= i -> i <= j -> j <= len mid ->
  slice (pre ++ mid ++ post) (len pre + i) (len pre + j) = slice mid i j.
Proof.
  intros Hi Hij Hj. unfold slice.
  pose proof (len_nonneg pre). pose proof (len_nonneg post).
  rewrite !len_app.
  rewrite !clamp_inside by lia.
  replace (len pre + j - (len pre + i)) with (j - i) by lia.
  replace (Z.to_nat (len pre + i)) with (List.length pre + Z.to_nat i)%nat
    by (unfold len; lia).
  rewrite skipn_app, skipn_all2 by lia.
  replace (List.length pre + Z.to_nat i - List.length pre)%nat with (Z.to_nat i) by lia.
  simpl app. rewrite skipn_app, firstn_app.
  rewrite length_skipn.
  replace (Z.to_nat (j - i) - (List.length mid - Z.to_nat i))%nat with 0%nat
    by (unfold len in *; lia).
  simpl firstn. now rewrite app_nil_r.
Qed.

Lemma index_nonneg {A : Type} (data : list A) (i : Z) :
  0 <= i ->
  index data i = match nth_error data (Z.to_nat i) with
                 | Some a => Ok a
                 | None => Raise IndexError
                 end.
Proof.
  intros Hi. unfold index.
  destruct (Z.ltb_spec i 0) as [?|_]; [lia|].
  destruct (Z.ltb_spec i 0) as [?|_]; [lia|]. reflexivity.
Qed.

Lemma index_in_app {A : Type} (pre mid post : list A) (i : Z) :
  0 <= i < len mid ->
  index (pre ++ mid ++ post) (len pre + i) = index mid i.
Proof.
  intros Hi. pose proof (len_nonneg pre).
  rewrite !index_nonneg by lia.
  replace (Z.to_nat (len pre + i)) with (List.length pre + Z.to_nat i)%nat
    by (unfold len; lia).
  rewrite nth_error_app2 by lia.
  replace (List.length pre + Z.to_nat i - List.length pre)%nat with (Z.to_nat i) by lia.
  rewrite nth_error_app1 by (unfold len in *; lia).
  reflexivity.
Qed.

(** Reading one byte in range, as a slice and as an index. *)
Lemma slice_one {A : Type} (data : list A) (i : Z) (a : A) :
  0 <= i -> index data i = Ok a -> slice data i (i + 1) = [a].
Proof.
  intros Hi. rewrite index_nonneg by lia. unfold slice.
  destruct (nth_error data (Z.to_nat i)) eqn:E; [|discriminate].
  intros [= ->].
  assert (Hlt : (Z.to_nat i < List.length data)%nat)
    by (apply nth_error_Some; congruence).
  rewrite !clamp_inside by (unfold len; lia).
  replace (i + 1 - i) with 1 by lia.
  apply nth_error_split in E as (l1 & l2 & -> & Hl).
  rewrite <- Hl, skipn_app, skipn_all, Nat.sub_diag. reflexivity.
Qed.

Lemma index_in_range {A : Type} (data : list A) (i : Z) (a : A) :
  0 <= i -> index data i = Ok a -> i < len data.
Proof.
  intros Hi. rewrite index_nonneg by lia.
  destruct (nth_error data (Z.to_nat i)) eqn:E; [|discriminate].
  intros _.
  assert ((Z.to_nat i < List.length data)%nat) by (apply nth_error_Some; congruence).
  unfold len; lia.
Qed.

(** The two text slices of [format(x, "08b")] are the two nibbles. *)
Lemma nibbles_of_byte (b : byte) :
  int_base2 (str_slice (format_08b (byte_val b)) 0 4) = Ok (byte_val b / 16)
  /\ int_base2 (str_slice (format_08b (byte_val b)) 4 8) = Ok (byte_val b mod 16).
Proof.
  destruct b; vm_compute; split; reflexivity.
Qed.

Lemma unpack_one (b : byte) : unpack [b] false = byte_val b.
Proof. unfold unpack; simpl; lia. Qed.

(** ** The data-run decoder *)

Lemma run_body_step (attribute : bytes) (h : byte) (ro fb prev : Z) (acc : list Z) :
  slice attribute ro (ro + 1) = [h] ->
  run_body attribute (ro, fb, prev, acc) = run_step attribute h ro prev acc.
Proof.
  intros Hh. unfold run_body, run_step. rewrite Hh, unpack_one.
  destruct (nibbles_of_byte h) as [-> ->]. reflexivity.
Qed.

Lemma run_loop_done (fuel : nat) (attribute : bytes) (ro prev : Z) (acc : list Z) :
  run_loop fuel attribute (ro, 0, prev, acc) = Some (Ok acc).
Proof. destruct fuel; reflexivity. Qed.

Lemma run_loop_round (fuel : nat) (attribute : bytes) (h : byte) (ro fb prev : Z)
  (acc : list Z) :
  fb <> 0 ->
  slice attribute ro (ro + 1) = [h] ->
  run_loop (S fuel) attribute (ro, fb, prev, acc) =
  match run_step attribute h ro prev acc with
  | Ok st' => run_loop fuel attribute st'
  | Raise e => Some (Raise e)
  end.
Proof.
  intros Hfb Hh. cbn [run_loop].
  destruct (Z.eqb_spec fb 0); [contradiction|].
  now rewrite (run_body_step _ h).
Qed.

(** The decoding loop always ends: the cursor moves forward by at least
    one byte per round and must stay inside the attribute. *)
Lemma run_loop_terminates (attribute : bytes) (fuel : nat) :
  forall ro fb prev acc,
    0 <= ro < len attribute ->
    len attribute - ro <= Z.of_nat fuel ->
    exists r, run_loop fuel attribute (ro, fb, prev, acc) = Some r.
Proof.
  induction fuel as [|fuel IH]; intros ro fb prev acc Hro Hfuel; [lia|].
  destruct (Z.eq_dec fb 0) as [->|Hfb].
  - eexists. apply run_loop_done.
  - destruct (index attribute ro) as [h|e] eqn:Eh.
    2:{ rewrite index_nonneg in Eh by lia.
        destruct (nth_error attribute (Z.to_nat ro)) eqn:E; [discriminate|].
        apply nth_error_None in E. unfold len in *; lia. }
    rewrite (run_loop_round _ _ h) by (auto using slice_one with zarith).
    unfold run_step.
    pose proof (byte_val_range h) as Hb.
    assert (0 <= byte_val h / 16) by (apply Z.div_pos; lia).
    assert (0 <= byte_val h mod 16) by (apply Z.mod_pos_bound; lia).
    destruct (list_range _ _) as [clusters|e]; cbn [bind]; [|eauto].
    destruct (index attribute (ro + byte_val h mod 16 + 1 + byte_val h / 16)) as [b|e] eqn:Eb;
      cbn [bind]; [|eauto].
    apply index_in_range in Eb; [|lia].
    apply IH; lia.
Qed.

Lemma from_bytes_little_nonneg (data : bytes) : 0 <= from_bytes_little data.
Proof.
  induction data as [|b data IH]; cbn [from_bytes_little]; [lia|].
  pose proof (byte_val_range b). lia.
Qed.

(** Hence decoding a located attribute always yields a result, once the
    round budget covers the attribute's length. *)
Lemma parse_data_of_total (fuel : nat) (attribute : bytes) :
  (List.length attribute <= fuel)%nat ->
  exists r, parse_data_of fuel attribute = Some r.
Proof.
  intros Hfuel. unfold parse_data_of.
  destruct (index attribute 8) as [flag|e]; [|eauto].
  destruct (byte_val flag =? 0); [eauto|].
  destruct (index attribute _) as [fb|e] eqn:Efb; [|eauto].
  pose proof (from_bytes_little_nonneg (slice attribute 32 34)) as Hnn.
  unfold unpack in *.
  pose proof (index_in_range _ _ _ Hnn Efb) as Hlt.
  destruct (run_loop_terminates attribute fuel
              (from_bytes_little (slice attribute 32 34)) (byte_val fb) 0 [])
    as [r ->]; [lia | unfold len in *; lia |].
  destruct r; eauto.
Qed.

(** *** The decoder only looks at the run-list bytes

    When the run list [runs] decodes on its own without leaving its
    bounds, it decodes to the same clusters wherever it sits inside an
    attribute, whatever comes before and after it. *)

Lemma run_step_in_app (pre runs post : bytes) (h : byte) (k prev : Z) (acc : list Z)
  (k' fb' prev' : Z) (acc' : list Z) :
  0 <= k ->
  run_step runs h k prev acc = Ok (k', fb', prev', acc') ->
  run_step (pre ++ runs ++ post) h (len pre + k) prev acc
  = Ok (len pre + k', fb', prev', acc') /\ k < k' < len runs.
Proof.
  intros Hk. unfold run_step.
  pose proof (byte_val_range h) as Hb.
  assert (Ho : 0 <= byte_val h / 16) by (apply Z.div_pos; lia).
  assert (Hn : 0 <= byte_val h mod 16) by (apply Z.mod_pos_bound; lia).
  set (o := byte_val h / 16) in *. set (n := byte_val h mod 16) in *.
  destruct (index runs (k + n + 1 + o)) as [b|e] eqn:Eb.
  2:{ destruct (list_range _ _); discriminate. }
  pose proof (index_in_range runs (k + n + 1 + o) b ltac:(lia) Eb) as Hlt.
  replace (len pre + k + n + 1 + o) with (len pre + (k + n + 1 + o)) by lia.
  replace (len pre + k + n + 1) with (len pre + (k + n + 1)) by lia.
  replace (len pre + k + 1) with (len pre + (k + 1)) by lia.
  rewrite index_in_app, Eb by lia.
  rewrite !slice_in_app by lia.
  destruct (list_range _ _) as [clusters|e]; cbn [bind]; [|discriminate].
  intros [= <- <- <- <-].
  split; [reflexivity | lia].
Qed.

Lemma run_loop_in_app (pre runs post : bytes) (fuel : nat) :
  forall (k fb prev : Z) (acc sector_list : list Z),
    0 <= k < len runs ->
    run_loop fuel runs (k, fb, prev, acc) = Some (Ok sector_list) ->
    run_loop fuel (pre ++ runs ++ post) (len pre + k, fb, prev, acc)
    = Some (Ok sector_list).
Proof.
  induction fuel as [|fuel IH]; intros k fb prev acc sector_list Hk.
  - cbn [run_loop]. destruct (fb =? 0); [auto | discriminate].
  - destruct (Z.eq_dec fb 0) as [->|Hfb].
    + now rewrite !run_loop_done.
    + pose proof (len_nonneg pre) as Hpre.
      destruct (index runs k) as [h|e] eqn:Eh.
      2:{ rewrite index_nonneg in Eh by lia.
          destruct (nth_error runs (Z.to_nat k)) eqn:E; [discriminate|].
          apply nth_error_None in E. unfold len in *; lia. }
      rewrite (run_loop_round _ runs h) by (auto using slice_one with zarith).
      rewrite (run_loop_round _ (pre ++ runs ++ post) h); [|assumption|].
      2:{ apply slice_one; [lia|]. now rewrite index_in_app. }
      destruct (run_step runs h k prev acc) as [[[[k' fb'] prev'] acc']|e] eqn:Es;
        [|discriminate].
      destruct (run_step_in_app pre runs post _ _ _ _ _ _ _ _ (proj1 Hk) Es) as [-> Hk'].
      apply IH. lia.
Qed.

(** A non-resident attribute whose run list sits at the offset stored in
    header bytes 32-33. *)
Lemma parse_data_of_runs (fuel : nat) (pre runs post : bytes) (flag : byte)
  (sector_list : list Z) :
  let attribute := pre ++ runs ++ post in
  index attribute 8 = Ok flag ->
  byte_val flag <> 0 ->
  unpack (slice attribute 32 34) false = len pre ->
  match index runs 0 with
  | Ok fb => run_loop fuel runs (0, byte_val fb, 0, [])
  | Raise e => Some (Raise e)
  end = Some (Ok sector_list) ->
  parse_data_of fuel attribute
  = Some (Ok (data_dict.Build 0x80
                (unpack (slice attribute 48 56) false)
                (Some (unpack (slice attribute 56 63) false))
                (Some sector_list))).
Proof.
  intros attribute Hflag Hnz Hro Hrun. unfold parse_data_of.
  rewrite Hflag. destruct (Z.eqb_spec (byte_val flag) 0); [contradiction|].
  rewrite Hro.
  destruct (index runs 0) as [fb|e] eqn:Efb; [|discriminate].
  pose proof (index_in_range runs 0 fb ltac:(lia) Efb) as Hlt.
  replace (len pre) with (len pre + 0) by lia.
  unfold attribute. rewrite index_in_app, Efb by lia.
  rewrite (run_loop_in_app pre runs post fuel 0 _ 0 [] sector_list); auto; lia.
Qed.

Lemma parse_data_attr_located (fuel : nat) (entry : bytes) (prev_attr_end : Z)
  (attribute : bytes) (attr_end : Z) :
  get_attr_by_id fuel 0x80 entry prev_attr_end = Some (attribute, attr_end) ->
  parse_data_attr fuel entry prev_attr_end = parse_data_of fuel attribute.
Proof. intros H. unfold parse_data_attr. now rewrite H. Qed.

(** Proof steps for concrete run lists: read the first header byte,
    then unfold one round of the loop at header byte [h] and evaluate it. *)
Ltac first_header :=
  match goal with
  | |- context [index ?runs 0] =>
    let v := eval vm_compute in (index runs 0) in
    change (index runs 0) with v; cbv iota
  end.

Ltac run_round h :=
  rewrite (run_loop_round _ _ h) by (vm_compute; (reflexivity || discriminate));
  match goal with
  | |- context [run_step ?a h ?k ?p ?acc] =>
    let v := eval vm_compute in (run_step a h k p acc) in
    change (run_step a h k p acc) with v; cbv iota
  end.

(** C1.  A non-resident $DATA attribute whose run list is the bytes
    [0x11 0x30 0x10 0x00] decodes to exactly the 48 clusters 16, 17, ..., 63:
    the decoder stops at the [0x00] byte, and nothing that follows the
    terminator is decoded. *)
Theorem C1_single_run_16_to_63 (fuel : nat) (entry : bytes) (prev_attr_end : Z)
  (pre post : bytes) (attr_end : Z) (flag : byte) :
  let attribute := pre ++ [x11; x30; x10; x00] ++ post in
  get_attr_by_id fuel 0x80 entry prev_attr_end = Some (attribute, attr_end) ->
  index attribute 8 = Ok flag ->
  byte_val flag <> 0 ->
  unpack (slice attribute 32 34) false = len pre ->
  (1 <= fuel)%nat ->
  exists d, parse_data_attr fuel entry prev_attr_end = Some (Ok d)
            /\ data_dict.sector_list d = Some (map Z.of_nat (seq 16 48)).
Proof.
  intros attribute Hget Hflag Hnz Hro Hfuel.
  rewrite (parse_data_attr_located _ _ _ _ _ Hget).
  eexists. split.
  - apply (parse_data_of_runs fuel pre [x11; x30; x10; x00] post flag); eauto.
    destruct fuel as [|fuel]; [lia|].
    first_header. run_round x11. apply run_loop_done.
  - reflexivity.
Qed.

Lemma C1_single_run_16_to_63_witness :
  exists d, parse_data_attr 1 data_attr_single_run 0 = Some (Ok d)
            /\ data_dict.sector_list d = Some (map Z.of_nat (seq 16 48)).
Proof.
  apply (C1_single_run_16_to_63 1 data_attr_single_run 0
           nonresident_header [x00; x00; x00; x00] 72 x01).
  - reflexivity.
  - reflexivity.
  - vm_compute; discriminate.
  - reflexivity.
  - lia.
Defined.

(** *** Accumulation of the signed deltas *)

(** A range of at most [sys.maxsize / 8] items is built. *)
Lemma list_range_small (a b : Z) :
  b - a <= sys_maxsize / 8 -> list_range a b = Ok (range a b).
Proof.
  intros H. unfold list_range.
  assert (Hm : sys_maxsize / 8 <= sys_maxsize) by (vm_compute; discriminate).
  destruct (Z.ltb_spec sys_maxsize (b - a)); [lia|].
  destruct (Z.ltb_spec (sys_maxsize / 8) (b - a)); [lia | reflexivity].
Qed.

Lemma signed_byte_small (b : byte) : from_bytes_little_signed [b] <= 127.
Proof. destruct b; vm_compute; discriminate. Qed.

Lemma byte_length_fits (n : Z) : n <= 127 -> n <= sys_maxsize / 8.
Proof.
  intros H. assert (127 <= sys_maxsize / 8) by (vm_compute; discriminate). lia.
Qed.

(** Two runs with one-byte fields: the second run starts at the first
    run's starting cluster plus the second (signed) delta.  The first
    run's length plays no part in where the second run starts. *)
Lemma two_runs_accumulate (fuel : nat) (l1 d1 l2 d2 : byte) :
  let n1 := from_bytes_little_signed [l1] in
  let s1 := from_bytes_little_signed [d1] in
  let n2 := from_bytes_little_signed [l2] in
  let s2 := from_bytes_little_signed [d2] in
  (2 <= fuel)%nat ->
  run_loop fuel [x11; l1; d1; x11; l2; d2; x00] (0, byte_val x11, 0, [])
  = Some (Ok (range s1 (s1 + n1) ++ range (s1 + s2) (s1 + s2 + n2))).
Proof.
  intros n1 s1 n2 s2 Hfuel.
  destruct fuel as [|[|fuel]]; [lia | lia |].
  set (runs := [x11; l1; d1; x11; l2; d2; x00]).
  rewrite (run_loop_round _ _ x11) by (reflexivity || (vm_compute; discriminate)).
  replace (run_step runs x11 0 0 [])
    with (curr <- list_range s1 (s1 + n1) ;;
          @Ok run_state (3, byte_val x11, s1, curr)) by reflexivity.
  rewrite list_range_small
    by (apply byte_length_fits; replace (s1 + n1 - s1) with n1 by lia; apply signed_byte_small).
  cbn [bind].
  rewrite (run_loop_round _ _ x11) by (reflexivity || (vm_compute; discriminate)).
  replace (run_step runs x11 3 s1 (range s1 (s1 + n1)))
    with (curr <- list_range (s1 + s2) (s1 + s2 + n2) ;;
          @Ok run_state (6, 0, s1 + s2, range s1 (s1 + n1) ++ curr)) by reflexivity.
  rewrite list_range_small
    by (apply byte_length_fits; replace (s1 + s2 + n2 - (s1 + s2)) with n2 by lia;
        apply signed_byte_small).
  cbn [bind].
  apply run_loop_done.
Qed.

(** C2 (as amended).  With the run [0x11 0x30 0x10] followed by a second
    run of header [0x11], length byte 2 and delta byte [0xFB] (-5), the
    second run starts at cluster 11 = 16 - 5: each signed delta is added
    to the running value, which is the previous run's starting cluster;
    the previous run's length (48) is not added. *)
Theorem C2_second_run_starts_at_11 (fuel : nat) (entry : bytes) (prev_attr_end : Z)
  (pre post : bytes) (attr_end : Z) (flag : byte) :
  let attribute := pre ++ [x11; x30; x10; x11; x02; xfb; x00] ++ post in
  get_attr_by_id fuel 0x80 entry prev_attr_end = Some (attribute, attr_end) ->
  index attribute 8 = Ok flag ->
  byte_val flag <> 0 ->
  unpack (slice attribute 32 34) false = len pre ->
  (2 <= fuel)%nat ->
  exists d, parse_data_attr fuel entry prev_attr_end = Some (Ok d)
            /\ data_dict.sector_list d = Some (map Z.of_nat (seq 16 48) ++ [16 - 5; 16 - 5 + 1]).
Proof.
  intros attribute Hget Hflag Hnz Hro Hfuel.
  rewrite (parse_data_attr_located _ _ _ _ _ Hget).
  eexists. split.
  - apply (parse_data_of_runs fuel pre [x11; x30; x10; x11; x02; xfb; x00] post flag);
      eauto.
    first_header. apply (two_runs_accumulate fuel x30 x10 x02 xfb Hfuel).
  - reflexivity.
Qed.

Lemma C2_second_run_starts_at_11_witness :
  exists d, parse_data_attr 2 data_attr_two_runs 0 = Some (Ok d)
            /\ data_dict.sector_list d = Some (map Z.of_nat (seq 16 48) ++ [11; 12]).
Proof.
  apply (C2_second_run_starts_at_11 2 data_attr_two_runs 0
           nonresident_header [x00] 72 x01).
  - reflexivity.
  - reflexivity.
  - vm_compute; discriminate.
  - reflexivity.
  - lia.
Defined.

(** C2 as stated fails: on the two-run attribute the 49th emitted cluster,
    the start of the second run, is 11 and not 59. *)
Lemma C2_second_run_not_59 :
  parse_data_attr 2 data_attr_two_runs 0
  = Some (Ok (data_dict.Build 0x80 196608 (Some 196608)
                (Some (map Z.of_nat (seq 16 48) ++ [11; 12]))))
  /\ nth_error (map Z.of_nat (seq 16 48) ++ [11; 12]) 48 = Some 11
  /\ 11 <> 16 + 48 - 5.
Proof.
  split; [vm_compute; reflexivity|]. split; [reflexivity | discriminate].
Qed.

(** *** Runs without offset bytes *)

Lemma from_bytes_little_signed_nil : from_bytes_little_signed [] = 0.
Proof. reflexivity. Qed.

Lemma slice_empty {A : Type} (data : list A) (i : Z) : slice data i i = [].
Proof. unfold slice. now rewrite Z.sub_diag. Qed.

(** C3 (as amended).  A run whose header has an offset-length nibble of 0
    is decoded like any other run: the empty offset field reads as a
    delta of 0, so the running cluster value is left as it was and the
    run's clusters are emitted starting at the previous run's starting
    cluster.  No run is left out of the list or marked as a hole.  (As for
    any run, the clusters are emitted when their list is built; a run too
    long for a list makes the decoder fail instead.) *)
Theorem C3_sparse_run_reuses_previous_start (fuel : nat) (attribute : bytes) (h : byte)
  (runlist_offset prev_first_cluster : Z) (sector_list : list Z) :
  0 <= runlist_offset ->
  index attribute runlist_offset = Ok h ->
  byte_val h <> 0 ->
  byte_val h / 16 = 0 ->
  let run_length_nibble := byte_val h mod 16 in
  let byte_offset := runlist_offset + run_length_nibble + 1 in
  let length := unpack (slice attribute (runlist_offset + 1) byte_offset) true in
  run_loop (S fuel) attribute (runlist_offset, byte_val h, prev_first_cluster, sector_list)
  = match list_range prev_first_cluster (prev_first_cluster + length) with
    | Ok curr_sec_list =>
      match index attribute byte_offset with
      | Ok first_byte =>
        run_loop fuel attribute
          (byte_offset, byte_val first_byte, prev_first_cluster,
           sector_list ++ curr_sec_list)
      | Raise e => Some (Raise e)
      end
    | Raise e => Some (Raise e)
    end
  /\ (forall curr_sec_list,
        list_range prev_first_cluster (prev_first_cluster + length) = Ok curr_sec_list ->
        curr_sec_list = range prev_first_cluster (prev_first_cluster + length)).
Proof.
  intros Hro Hh Hnz Hsparse n byte_offset length. split.
  - rewrite (run_loop_round _ _ h) by (auto using slice_one).
    unfold run_step. rewrite Hsparse.
    fold n. fold byte_offset. rewrite !Z.add_0_r.
    rewrite slice_empty, from_bytes_little_signed_nil, !Z.add_0_r.
    fold (unpack (slice attribute (runlist_offset + 1) byte_offset) true). fold length.
    destruct (list_range prev_first_cluster (prev_first_cluster + length));
      cbn [bind]; [|reflexivity].
    destruct (index attribute byte_offset); reflexivity.
  - intros curr_sec_list. unfold list_range.
    destruct (_ <? _); [discriminate|]. destruct (_ <? _); [discriminate|].
    now intros [= <-].
Qed.

Lemma C3_sparse_run_reuses_previous_start_witness :
  run_loop 1 data_attr_sparse (67, byte_val x01, 16, [16; 17; 18])
  = Some (Ok [16; 17; 18; 16; 17]).
Proof.
  destruct (C3_sparse_run_reuses_previous_start 0 data_attr_sparse x01 67 16 [16; 17; 18])
    as [Hloop Hbuilt].
  - lia.
  - reflexivity.
  - vm_compute; discriminate.
  - reflexivity.
  - rewrite Hloop.
    rewrite (Hbuilt [16; 17]) by reflexivity. reflexivity.
Defined.

(** C3 as stated fails: the two clusters of the run without offset bytes
    are neither left out nor marked; they come out as 16 and 17, the
    position of the run before. *)
Lemma C3_sparse_run_not_excluded :
  parse_data_attr 2 data_attr_sparse 0
  = Some (Ok (data_dict.Build 0x80 196608 (Some 196608) (Some [16; 17; 18; 16; 17])))
  /\ [16; 17; 18; 16; 17] <> [16; 17; 18].
Proof.
  split; [vm_compute; reflexivity | discriminate].
Qed.

(** *** The run-length field *)

(** C4.  The decoder reads the run-length field with [signed=True]: the
    length byte [0x80], 128 as an unsigned number, is taken as -128 and the
    run contributes no cluster at all, where the unsigned reading gives the
    128 clusters 16 .. 143. *)
Theorem C4_run_length_read_as_signed :
  parse_data_attr 1 data_attr_long_run 0
  = Some (Ok (data_dict.Build 0x80 196608 (Some 196608) (Some [])))
  /\ unpack [x80] true = -128
  /\ unpack [x80] false = 128
  /\ List.length (range 16 (16 + unpack [x80] false)) = 128%nat.
Proof.
  repeat split; vm_compute; reflexivity.
Qed.

(** The two readings of a field agree exactly when its top bit is clear. *)
Lemma signed_unsigned_agree (data : bytes) :
  from_bytes_little data < 2 ^ (8 * len data - 1) ->
  unpack data true = unpack data false.
Proof.
  intros H. unfold unpack, from_bytes_little_signed.
  destruct (Z.leb_spec (2 ^ (8 * len data - 1)) (from_bytes_little data)); [lia|].
  now rewrite andb_false_r.
Qed.

(** ** The attribute walker *)

Lemma walk_body_advance (entry afe : bytes) (cae prev_attr_end : Z) :
  let length := unpack (slice entry (prev_attr_end + 4) (prev_attr_end + 8)) false in
  0 <= length
  /\ walk_body entry (afe, cae, prev_attr_end)
     = (slice entry prev_attr_end (prev_attr_end + length),
        prev_attr_end + length, prev_attr_end + length).
Proof.
  split; [apply from_bytes_little_nonneg | reflexivity].
Qed.

(** The walker can only return a record that carries the requested type. *)
Lemma walk_loop_returns_match (attr_id : Z) (entry : bytes) (fuel : nat) :
  forall st record next,
    walk_loop fuel attr_id entry st = Some (record, next) ->
    unpack (slice_to record 4) false = attr_id.
Proof.
  induction fuel as [|fuel IH]; intros [[afe cae] prev] record next;
    cbn [walk_loop]; destruct (walk_test attr_id (afe, cae, prev)) eqn:Et;
    try discriminate; try (intros H; exact (IH _ _ _ H)).
  all: intros [= <- <-]; cbn [walk_test] in Et;
    apply negb_false_iff, Z.eqb_eq in Et; exact Et.
Qed.

(** A candidate with a declared length of 0 holds the walker in place:
    the record read is empty, its type reads as 0, and the next round
    starts from the same offset. *)
Lemma walk_loop_stuck (attr_id : Z) (entry : bytes) (p : Z) :
  attr_id <> 0 ->
  unpack (slice entry (p + 4) (p + 8)) false = 0 ->
  forall fuel afe cae,
    walk_test attr_id (afe, cae, p) = true ->
    walk_loop fuel attr_id entry (afe, cae, p) = None.
Proof.
  intros Hid Hlen. induction fuel as [|fuel IH]; intros afe cae Ht;
    cbn [walk_loop]; rewrite Ht; [reflexivity|].
  cbn [walk_body]. rewrite Hlen, Z.add_0_r. apply IH.
  cbn [walk_test]. rewrite slice_empty.
  apply negb_true_iff, Z.eqb_neq. cbn. congruence.
Qed.

Lemma get_attr_by_id_stuck (attr_id : Z) (entry : bytes) (prev_attr_end : Z) :
  attr_id <> 0 ->
  unpack (slice entry (prev_attr_end + 4) (prev_attr_end + 8)) false = 0 ->
  forall fuel, get_attr_by_id fuel attr_id entry prev_attr_end = None.
Proof.
  intros Hid Hlen fuel. unfold get_attr_by_id.
  apply walk_loop_stuck; auto.
  cbn [walk_test]. apply negb_true_iff, Z.eqb_neq.
  change (unpack (slice_to [x00; x00; x00; x00] 4) false) with 0. congruence.
Qed.

Lemma clamp_le (n i : Z) : 0 <= n -> clamp n i <= n.
Proof. intros Hn. unfold clamp. destruct (Z.ltb_spec i 0); lia. Qed.

Lemma slice_past_end {A : Type} (data : list A) (i j : Z) :
  len data <= i -> slice data i j = [].
Proof.
  intros Hi. unfold slice. pose proof (len_nonneg data) as Hn.
  pose proof (clamp_le (len data) j Hn).
  replace (clamp (len data) i) with (len data)
    by (unfold clamp; destruct (Z.ltb_spec i 0); lia).
  replace (Z.to_nat (clamp (len data) j - len data)) with 0%nat by lia.
  reflexivity.
Qed.

(** Once the offset is at or past the end of the entry the walker never
    returns either: the length is read from an empty slice, as 0, and no
    index is ever out of range for a slice. *)
Lemma get_attr_by_id_past_end (attr_id : Z) (entry : bytes) (prev_attr_end : Z) :
  attr_id <> 0 ->
  len entry <= prev_attr_end + 4 ->
  forall fuel, get_attr_by_id fuel attr_id entry prev_attr_end = None.
Proof.
  intros Hid Hend. apply get_attr_by_id_stuck; [assumption|].
  now rewrite slice_past_end.
Qed.

(** C5 (as amended).  The walker has no forward-progress check and no
    error of its own.  Each round moves the offset forward by the
    candidate's declared 4-byte length, which is never negative but may be
    0; it returns only a record whose first four bytes are the requested
    type code; and when the candidate at the search start has a length
    field of 0 (and the requested type code is not 0) it never returns,
    whatever number of rounds it is given. *)
Theorem C5_walker_has_no_progress_check (attr_id : Z) (entry : bytes) (prev_attr_end : Z) :
  let length := unpack (slice entry (prev_attr_end + 4) (prev_attr_end + 8)) false in
  (forall attr_full_entry curr_attr_end,
      0 <= length
      /\ walk_body entry (attr_full_entry, curr_attr_end, prev_attr_end)
         = (slice entry prev_attr_end (prev_attr_end + length),
            prev_attr_end + length, prev_attr_end + length))
  /\ (forall fuel record next,
         get_attr_by_id fuel attr_id entry prev_attr_end = Some (record, next) ->
         unpack (slice_to record 4) false = attr_id)
  /\ (attr_id <> 0 -> length = 0 ->
      forall fuel, get_attr_by_id fuel attr_id entry prev_attr_end = None).
Proof.
  intros length. split; [|split].
  - intros afe cae. apply walk_body_advance.
  - intros fuel record next H. exact (walk_loop_returns_match _ _ _ _ _ _ H).
  - intros Hid Hlen. now apply get_attr_by_id_stuck.
Qed.

Lemma C5_walker_has_no_progress_check_witness :
  get_attr_by_id 1 0x80 data_attr_single_run 0 = Some (data_attr_single_run, 72)
  /\ unpack (slice_to data_attr_single_run 4) false = 0x80
  /\ get_attr_by_id 1000 0x10 zero_entry 0x38 = None.
Proof.
  split; [reflexivity|]. split.
  - apply (proj1 (proj2 (C5_walker_has_no_progress_check 0x80 data_attr_single_run 0))
             1%nat data_attr_single_run 72).
    reflexivity.
  - apply (proj2 (proj2 (C5_walker_has_no_progress_check 0x10 zero_entry 0x38))).
    + discriminate.
    + reflexivity.
Defined.

(** C5 as stated fails: searching the zero buffer for type [0x10] from the
    first attribute offset [0x38] meets a length field of 0; the walker
    then neither returns nor fails, for any number of rounds. *)
Lemma C5_zero_length_never_returns :
  ~ (exists fuel r, get_attr_by_id fuel 0x10 zero_entry 0x38 = Some r).
Proof.
  intros (fuel & r & H).
  rewrite get_attr_by_id_stuck in H; [discriminate | discriminate | reflexivity].
Qed.

(** ** The fixup array *)

Lemma bytes_eqb_eq (a b : bytes) : bytes_eqb a b = true <-> a = b.
Proof.
  revert b. induction a as [|x a IH]; intros [|y b]; cbn [bytes_eqb];
    try (split; (reflexivity || discriminate)).
  rewrite andb_true_iff, IH. split.
  - intros [Hxy ->]. now rewrite (Byte.byte_dec_bl _ _ Hxy).
  - intros [= -> ->]. split; [now apply Byte.byte_dec_lb | reflexivity].
Qed.

(** A slice with bounds in range cuts the buffer in three. *)
Lemma slice_parts {A : Type} (data : list A) (i j : Z) :
  0 <= i -> i <= j -> j <= len data ->
  exists l1 l3, data = l1 ++ slice data i j ++ l3
                /\ len l1 = i /\ len (slice data i j) = j - i.
Proof.
  intros Hi Hij Hj. unfold slice. rewrite !clamp_inside by lia.
  exists (firstn (Z.to_nat i) data),
         (skipn (Z.to_nat (j - i)) (skipn (Z.to_nat i) data)).
  rewrite (firstn_skipn (Z.to_nat (j - i))), firstn_skipn.
  split; [reflexivity|].
  unfold len in *. rewrite !length_firstn, length_skipn. lia.
Qed.

Lemma slice_slice {A : Type} (data : list A) (a b i j : Z) :
  0 <= a -> a <= b -> b <= len data -> 0 <= i -> i <= j -> j <= b - a ->
  slice (slice data a b) i j = slice data (a + i) (a + j).
Proof.
  intros Ha Hab Hb Hi Hij Hj.
  destruct (slice_parts data a b Ha Hab Hb) as (l1 & l3 & Hd & Hl1 & Hl2).
  set (mid := slice data a b) in *. clearbody mid.
  subst data a. now rewrite slice_in_app by lia.
Qed.

Lemma slice_all {A : Type} (data : list A) : slice data 0 (len data) = data.
Proof.
  unfold slice. pose proof (len_nonneg data).
  rewrite !clamp_inside by lia. cbn [Z.to_nat skipn].
  apply firstn_all2. unfold len; lia.
Qed.

Lemma firstn_plus {A : Type} (n m : nat) (d : list A) :
  firstn (n + m) d = firstn n d ++ firstn m (skipn n d).
Proof.
  revert d. induction n as [|n IH]; intros [|x d]; cbn; try reflexivity.
  - now destruct m.
  - now rewrite IH.
Qed.

Lemma slice_split {A : Type} (data : list A) (i j k : Z) :
  0 <= i -> i <= j -> j <= k -> k <= len data ->
  slice data i k = slice data i j ++ slice data j k.
Proof.
  intros Hi Hij Hjk Hk. unfold slice. rewrite !clamp_inside by lia.
  replace (skipn (Z.to_nat j) data)
    with (skipn (Z.to_nat (j - i)) (skipn (Z.to_nat i) data))
    by (rewrite skipn_skipn; f_equal; lia).
  replace (Z.to_nat (k - i)) with (Z.to_nat (j - i) + Z.to_nat (k - j))%nat by lia.
  apply firstn_plus.
Qed.

(** Replacing the tails of two 512-byte sectors, on lists. *)
Lemma sector_tails_replaced {A : Type} (p1 a p2 b a' b' : list A) :
  len p1 = 510 -> len a = 2 -> len p2 = 510 -> len b = 2 ->
  len a' = 2 -> len b' = 2 ->
  let entry := p1 ++ a ++ p2 ++ b in
  let out := p1 ++ a' ++ p2 ++ b' in
  len out = 1024
  /\ slice out 510 512 = a'
  /\ slice out 1022 1024 = b'
  /\ (forall i, 0 <= i < 1024 -> i <> 510 -> i <> 511 -> i <> 1022 -> i <> 1023 ->
                index out i = index entry i).
Proof.
  intros H1 Ha H2 Hb Ha' Hb' entry out. unfold entry, out.
  split; [rewrite !len_app; lia|]. split; [|split].
  - replace 510 with (len p1 + 0) by lia. replace 512 with (len p1 + 2) by lia.
    rewrite slice_in_app by lia. rewrite <- Ha'. apply slice_all.
  - replace (p1 ++ a' ++ p2 ++ b') with ((p1 ++ a' ++ p2) ++ b' ++ [])
      by (now rewrite app_nil_r, <- !app_assoc).
    replace 1022 with (len (p1 ++ a' ++ p2) + 0) by (rewrite !len_app; lia).
    replace 1024 with (len (p1 ++ a' ++ p2) + 2) by (rewrite !len_app; lia).
    rewrite slice_in_app by lia. rewrite <- Hb'. apply slice_all.
  - intros i Hi N1 N2 N3 N4.
    destruct (Z_lt_ge_dec i 510) as [Hlt|Hge].
    + change (p1 ++ a' ++ p2 ++ b') with ([] ++ p1 ++ a' ++ p2 ++ b').
      change (p1 ++ a ++ p2 ++ b) with ([] ++ p1 ++ a ++ p2 ++ b).
      replace i with (len (@nil A) + i) by (cbn; lia).
      now rewrite !index_in_app by lia.
    + replace (p1 ++ a' ++ p2 ++ b') with ((p1 ++ a') ++ p2 ++ b')
        by (now rewrite <- app_assoc).
      replace (p1 ++ a ++ p2 ++ b) with ((p1 ++ a) ++ p2 ++ b)
        by (now rewrite <- app_assoc).
      replace i with (len (p1 ++ a') + (i - 512)) at 1 by (rewrite len_app; lia).
      replace i with (len (p1 ++ a) + (i - 512)) at 2 by (rewrite len_app; lia).
      now rewrite !index_in_app by lia.
Qed.

(** C6.  On a valid 1024-byte entry the corrector returns a 1024-byte
    buffer in which bytes 510-511 and 1022-1023 are the second and third
    pair of the fixup array (the first pair, the update-sequence number,
    is skipped) and every other byte is the entry's.  The corrector is a
    function from values to values: the buffer it is given is a Python
    [bytes] object, which cannot be changed, and the result is a new one. *)
Theorem C6_fixup_replaces_two_sector_tails (entry : bytes) :
  valid_entry entry ->
  exists out,
    apply_fixup entry = Ok out
    /\ len out = 1024
    /\ slice out 510 512 = slice entry (fixup_offset entry + 2) (fixup_offset entry + 4)
    /\ slice out 1022 1024 = slice entry (fixup_offset entry + 4) (fixup_offset entry + 6)
    /\ (forall i, 0 <= i < 1024 -> i <> 510 -> i <> 511 -> i <> 1022 -> i <> 1023 ->
                  index out i = index entry i).
Proof.
  intros (Hlen & Hsig & Hcount & Hin).
  pose proof (from_bytes_little_nonneg (slice entry 4 6)) as Hoff.
  fold (fixup_offset entry) in Hoff.
  unfold apply_fixup. rewrite Hsig.
  change (negb (bytes_eqb FILE FILE)) with false. cbv iota.
  fold (fixup_offset entry) (fixup_count entry).
  set (f := fixup_offset entry) in *. set (n := fixup_count entry) in *.
  eexists. split; [reflexivity|].
  rewrite !(slice_slice entry (f + 2) (f + 2 * n)) by lia.
  replace (f + 2 + 0) with (f + 2) by lia.
  replace (f + 2 + 2) with (f + 4) by lia.
  replace (f + 2 + 4) with (f + 6) by lia.
  destruct (slice_parts entry 0 510) as (_ & _ & _ & _ & H1); try lia.
  destruct (slice_parts entry 510 512) as (_ & _ & _ & _ & Ha); try lia.
  destruct (slice_parts entry 512 1022) as (_ & _ & _ & _ & H2); try lia.
  destruct (slice_parts entry 1022 1024) as (_ & _ & _ & _ & Hb); try lia.
  destruct (slice_parts entry (f + 2) (f + 4)) as (_ & _ & _ & _ & Ha'); try lia.
  destruct (slice_parts entry (f + 4) (f + 6)) as (_ & _ & _ & _ & Hb'); try lia.
  assert (He : entry = slice entry 0 510 ++ slice entry 510 512
                       ++ slice entry 512 1022 ++ slice entry 1022 1024).
  { rewrite <- (slice_split entry 512 1022 1024), <- (slice_split entry 510 512 1024),
      <- (slice_split entry 0 510 1024) by lia.
    rewrite <- Hlen. symmetry. apply slice_all. }
  unfold slice_to.
  pose proof (sector_tails_replaced
                (slice entry 0 510) (slice entry 510 512)
                (slice entry 512 1022) (slice entry 1022 1024)
                (slice entry (f + 2) (f + 4)) (slice entry (f + 4) (f + 6))
                ltac:(lia) ltac:(lia) ltac:(lia) ltac:(lia) ltac:(lia) ltac:(lia)) as Hs.
  cbv zeta in Hs. rewrite <- He in Hs. exact Hs.
Qed.

Lemma C6_fixup_replaces_two_sector_tails_witness :
  exists out,
    apply_fixup fixup_sample_entry = Ok out
    /\ len out = 1024
    /\ slice out 510 512 = [xaa; xbb]
    /\ slice out 1022 1024 = [xcc; xdd]
    /\ (forall i, 0 <= i < 1024 -> i <> 510 -> i <> 511 -> i <> 1022 -> i <> 1023 ->
                  index out i = index fixup_sample_entry i).
Proof.
  apply (C6_fixup_replaces_two_sector_tails fixup_sample_entry).
  unfold valid_entry. repeat split; vm_compute; (reflexivity || discriminate).
Defined.

(** Outside the valid entries the length is not kept: with fewer than
    three fixup items the replacement pairs are short or missing. *)
Lemma apply_fixup_no_items :
  len no_fixup_entry = 1024
  /\ exists out, apply_fixup no_fixup_entry = Ok out /\ len out = 1020.
Proof.
  split; [reflexivity|]. eexists. split; vm_compute; reflexivity.
Qed.

Lemma slice_0_firstn {A : Type} (data : list A) (j : Z) :
  0 <= j -> slice data 0 j = firstn (Z.to_nat j) data.
Proof.
  intros Hj. unfold slice. pose proof (len_nonneg data) as Hn.
  rewrite (clamp_inside _ 0) by lia. cbn [Z.to_nat skipn].
  unfold clamp. destruct (Z.ltb_spec j 0); [lia|].
  rewrite Z.sub_0_r.
  destruct (Z_le_gt_dec j (len data)).
  - now rewrite Z.min_l by lia.
  - rewrite Z.min_r by lia.
    rewrite !firstn_all2; unfold len in *; (reflexivity || lia).
Qed.

(** C7.  A buffer (of any length, so in particular of 1024 bytes) whose
    first four bytes are not ['FILE'] makes the corrector fail on its
    signature assertion, the failure the specification calls
    BadSignatureError; and the corrector only ever returns a buffer for an
    entry that begins with ['FILE']. *)
Theorem C7_bad_signature_fails (entry : bytes) :
  (firstn 4 entry <> FILE -> apply_fixup entry = Raise AssertionError)
  /\ (forall out, apply_fixup entry = Ok out -> firstn 4 entry = FILE).
Proof.
  unfold apply_fixup. rewrite (slice_0_firstn entry 4) by lia.
  change (Z.to_nat 4) with 4%nat.
  destruct (bytes_eqb (firstn 4 entry) FILE) eqn:E; cbn [negb]; split.
  - intros Hne. apply bytes_eqb_eq in E. contradiction.
  - intros _ _. now apply bytes_eqb_eq.
  - reflexivity.
  - discriminate.
Qed.

Lemma C7_bad_signature_fails_witness :
  len zero_entry = 1024
  /\ apply_fixup zero_entry = Raise AssertionError
  /\ firstn 4 fixup_sample_entry = FILE.
Proof.
  split; [reflexivity|]. split.
  - apply (proj1 (C7_bad_signature_fails zero_entry)). discriminate.
  - apply (proj2 (C7_bad_signature_fails fixup_sample_entry)
             (firstn 510 fixup_sample_entry ++ [xaa; xbb]
                ++ firstn 510 (skipn 512 fixup_sample_entry) ++ [xcc; xdd])).
    vm_compute. reflexivity.
Defined.

(** ** The entry header *)

(** C10.  The header parser reports an entry as allocated when the whole
    2-byte flags field is non-zero, not when its bit 0 is set: the deleted
    directory, whose flags are [0x0002], is reported as allocated although
    bit 0 is clear. *)
Theorem C10_allocated_is_flags_nonzero :
  (forall address entry,
      header_dict.allocated (parse_entry_header address entry)
      = negb (unpack (slice entry 22 24) false =? 0))
  /\ len deleted_directory_entry = 1024
  /\ unpack (slice deleted_directory_entry 22 24) false = 2
  /\ Z.testbit (unpack (slice deleted_directory_entry 22 24) false) 0 = false
  /\ header_dict.allocated (parse_entry_header 5 deleted_directory_entry) = true.
Proof.
  split; [reflexivity|]. repeat split; vm_compute; reflexivity.
Qed.

(** ** Where attribute content is read from *)

(** When the header says 24, the fixed offset of [parse_time] and the
    header-stored content offset read the same bytes. *)
Lemma time_value_at_offset_24 (attribute : bytes) (attr_end a b : Z) :
  unpack (slice attribute 20 22) false = 24 ->
  0 <= a -> a <= b -> 24 + b <= len attribute -> len attribute <= attr_end + 1 ->
  time_value attribute (a, b) = from_bytes_little (slice (content_of attribute attr_end) a b).
Proof.
  intros Hoff Ha Hab Hb Hend. unfold time_value, content_of, header_length.
  rewrite Hoff. cbn [fst snd].
  replace (slice attribute 24 (attr_end + 1)) with (slice attribute 24 (len attribute)).
  - now rewrite slice_slice by lia.
  - unfold slice. f_equal. f_equal. f_equal.
    unfold clamp. pose proof (len_nonneg attribute).
    destruct (Z.ltb_spec (len attribute) 0), (Z.ltb_spec (attr_end + 1) 0); lia.
Qed.

(** C9.  The timestamps are not read at the header-stored content
    offset: [parse_time] adds its own constant 24.  On the attribute whose
    header stores a content offset of 32, the flags are read at the stored
    offset, but the created time is read from bytes 24-31 (the name) and
    not from the first eight content bytes. *)
Theorem C9_timestamps_read_at_fixed_offset_24 :
  (forall attribute a b,
      time_value attribute (a, b) = from_bytes_little (slice attribute (24 + a) (24 + b)))
  /\ unpack (slice std_info_named 20 22) false = 32
  /\ unpack (slice (content_of std_info_named 80) 32 36) false = 0x20
  /\ from_bytes_little (slice (content_of std_info_named 80) 0 8) = 116444736000000000
  /\ time_value std_info_named (0, 8) = from_bytes_little [x24; x00; x41; x00; x42; x00; x43; x00]
  /\ time_value std_info_named (0, 8)
     <> from_bytes_little (slice (content_of std_info_named 80) 0 8).
Proof.
  split; [reflexivity|]. repeat split; try (vm_compute; reflexivity).
  vm_compute. discriminate.
Qed.

(** ** The round budget is only a bound

    A loop that has finished within [fuel] rounds gives the same result
    with any larger budget. *)

Lemma walk_loop_mono (attr_id : Z) (entry : bytes) (fuel fuel' : nat) :
  forall st r,
    (fuel <= fuel')%nat ->
    walk_loop fuel attr_id entry st = Some r ->
    walk_loop fuel' attr_id entry st = Some r.
Proof.
  revert fuel'. induction fuel as [|fuel IH]; intros fuel' st r Hle;
    cbn [walk_loop]; destruct (walk_test attr_id st) eqn:Et; try discriminate.
  - destruct fuel'; cbn [walk_loop]; now rewrite Et.
  - destruct fuel' as [|fuel']; [lia|]. cbn [walk_loop]. rewrite Et.
    apply IH. lia.
  - destruct fuel'; cbn [walk_loop]; now rewrite Et.
Qed.

Lemma run_loop_mono (attribute : bytes) (fuel fuel' : nat) :
  forall st r,
    (fuel <= fuel')%nat ->
    run_loop fuel attribute st = Some r ->
    run_loop fuel' attribute st = Some r.
Proof.
  revert fuel'. induction fuel as [|fuel IH]; intros fuel' [[[ro fb] prev] acc] r Hle;
    cbn [run_loop]; destruct (fb =? 0) eqn:Efb; try discriminate.
  - destruct fuel'; cbn [run_loop]; now rewrite Efb.
  - destruct fuel'; cbn [run_loop]; now rewrite Efb.
  - destruct fuel' as [|fuel']; [lia|]. cbn [run_loop]. rewrite Efb.
    destruct (run_body attribute (ro, fb, prev, acc)); [|auto].
    apply IH. lia.
Qed.

(** ** The attribute parsers and the timestamp text *)

Section FormattingFacts.

Variable float : Type.
Variable true_div : Z -> Z -> result float.
Variable int_of_float : float -> result Z.
Variable datetime : Type.
Variable fromtimestamp : float -> result datetime.
Variable epoch_plus_seconds : Z -> result datetime.
Variable strftime_hms : datetime -> string.
Variable decode_utf_16_le : bytes -> result string.

Let localtime_string :=
  _localtime_string float true_div int_of_float datetime fromtimestamp
    epoch_plus_seconds strftime_hms.

(** The fractional field of the text is [windows_timestamp % 10000000],
    seven digits wide. *)
Lemma localtime_string_fraction (windows_timestamp : Z) (s : string) :
  localtime_string windows_timestamp = Ok s ->
  exists hms,
    s = (hms ++ "." ++ format_07d (windows_timestamp mod 10000000) ++ "00 (EDT)")%string.
Proof.
  unfold localtime_string, _localtime_string, fraction_of.
  destruct (true_div _ _) as [epoch_ts|]; cbn [bind]; [|discriminate].
  destruct (0 <? windows_timestamp);
    match goal with |- context [bind ?r _] => destruct r end; cbn [bind];
    try discriminate; intros [= <-]; eauto.
Qed.

(** A timestamp of 0 does not go through [fromtimestamp]. *)
Lemma localtime_string_zero :
  localtime_string 0
  = (epoch_ts <- true_div (-116444736000000000) 10000000 ;;
     seconds <- int_of_float epoch_ts ;;
     dt <- epoch_plus_seconds seconds ;;
     Ok (strftime_hms dt ++ ".000000000 (EDT)")%string).
Proof.
  unfold localtime_string, _localtime_string. cbn [Z.ltb Z.compare Z.sub Z.add Z.opp].
  destruct (true_div _ _) as [epoch_ts|]; cbn [bind]; [|reflexivity].
  destruct (int_of_float epoch_ts); reflexivity.
Qed.

(** Where each field of the $STANDARD_INFORMATION record is read. *)
Lemma parse_std_info_of_fields (attribute : bytes) (std_info_end : Z) (d : std_info_dict.t) :
  parse_std_info_of float true_div int_of_float datetime fromtimestamp
    epoch_plus_seconds strftime_hms attribute std_info_end = Ok d ->
  localtime_string (time_value attribute (0, 8)) = Ok (std_info_dict.created d)
  /\ localtime_string (time_value attribute (8, 16)) = Ok (std_info_dict.modified d)
  /\ localtime_string (time_value attribute (16, 24)) = Ok (std_info_dict.mft_modified d)
  /\ localtime_string (time_value attribute (24, 32)) = Ok (std_info_dict.accessed d)
  /\ std_info_dict.flags d = unpack (slice (content_of attribute std_info_end) 32 36) false
  /\ std_info_dict.std_info_size d = unpack (slice attribute 16 20) false
  /\ std_info_dict.std_info_end d = std_info_end.
Proof.
  unfold parse_std_info_of, parse_time, localtime_string.
  repeat match goal with
         | |- context [bind (_localtime_string ?a ?b ?c ?d ?e ?f ?g ?t) _] =>
           destruct (_localtime_string a b c d e f g t); cbn [bind]; [|discriminate]
         end.
  intros [= <-]. repeat split.
Qed.

(** Where each field of the $FILE_NAME record is read. *)
Lemma parse_file_name_of_fields (attribute : bytes) (file_name_end : Z)
  (d : file_name_dict.t) :
  parse_file_name_of float true_div int_of_float datetime fromtimestamp
    epoch_plus_seconds strftime_hms decode_utf_16_le attribute file_name_end = Ok d ->
  let content := content_of attribute file_name_end in
  localtime_string (time_value attribute (8, 16)) = Ok (file_name_dict.created d)
  /\ localtime_string (time_value attribute (16, 24)) = Ok (file_name_dict.modified d)
  /\ localtime_string (time_value attribute (24, 32)) = Ok (file_name_dict.mft_modified d)
  /\ localtime_string (time_value attribute (32, 40)) = Ok (file_name_dict.accessed d)
  /\ file_name_dict.parent d = unpack (slice content 0 6) false
  /\ file_name_dict.sequence d = unpack (slice content 6 8) false
  /\ file_name_dict.allocated_size d = unpack (slice content 40 48) false
  /\ file_name_dict.actual_size d = unpack (slice content 48 56) false
  /\ file_name_dict.flags d = unpack (slice content 56 60) false.
Proof.
  unfold parse_file_name_of, parse_time, localtime_string, content_of.
  repeat match goal with
         | |- context [bind (_localtime_string ?a ?b ?c ?d ?e ?f ?g ?t) _] =>
           destruct (_localtime_string a b c d e f g t); cbn [bind]; [|discriminate]
         end.
  destruct (index _ 64); cbn [bind]; [|discriminate].
  destruct (decode_utf_16_le _); cbn [bind]; [|discriminate].
  intros [= <-]. repeat split.
Qed.

End FormattingFacts.

(** The fractional field always lies in [0 .. 9999999]. *)
Lemma fraction_of_range (windows_timestamp : Z) :
  0 <= fraction_of windows_timestamp < 10000000.
Proof. unfold fraction_of. apply Z.mod_pos_bound. lia. Qed.

(** * Further properties of the code *)

(** ** [unpack] *)

Lemma from_bytes_little_bound (data : bytes) :
  0 <= from_bytes_little data < 2 ^ (8 * len data).
Proof.
  induction data as [|b data IH]; [cbn; lia|].
  cbn [from_bytes_little]. pose proof (byte_val_range b) as Hb.
  pose proof (len_nonneg data) as Hn.
  replace (8 * len (b :: data)) with (8 + 8 * len data)
    by (unfold len; cbn [List.length]; lia).
  rewrite Z.pow_add_r by lia. change (2 ^ 8) with 256. lia.
Qed.

Lemma from_bytes_little_app (a b : bytes) :
  from_bytes_little (a ++ b)
  = from_bytes_little a + 2 ^ (8 * len a) * from_bytes_little b.
Proof.
  induction a as [|x a IH]; [cbn [app from_bytes_little]; change (2 ^ (8 * len [])) with 1; lia|].
  cbn [app from_bytes_little]. rewrite IH.
  pose proof (len_nonneg a) as Hn.
  replace (8 * len (x :: a)) with (8 + 8 * len a)
    by (unfold len; cbn [List.length]; lia).
  rewrite Z.pow_add_r by lia. change (2 ^ 8) with 256. ring.
Qed.

Lemma from_bytes_little_zeros (k : nat) : from_bytes_little (repeat x00 k) = 0.
Proof.
  induction k as [|k IH]; [reflexivity|].
  cbn [repeat from_bytes_little]. rewrite IH. reflexivity.
Qed.

(** X1.  An unsigned field of [n] bytes is a number below [2 ^ (8 n)],
    never negative. *)
Theorem X1_unpack_unsigned_range (data : bytes) :
  0 <= unpack data false < 2 ^ (8 * len data).
Proof. apply from_bytes_little_bound. Qed.

(** X2.  Little endian: the bytes that come later weigh more, and zero
    bytes appended to a field do not change its unsigned value. *)
Theorem X2_unpack_little_endian (a b : bytes) (k : nat) :
  unpack (a ++ b) false = unpack a false + 2 ^ (8 * len a) * unpack b false
  /\ unpack (a ++ repeat x00 k) false = unpack a false.
Proof.
  unfold unpack. split; [apply from_bytes_little_app|].
  rewrite from_bytes_little_app, from_bytes_little_zeros. lia.
Qed.

(** X3.  The signed reading is the unsigned one modulo [2 ^ (8 n)], and
    for a field that is not empty it lies in the two's complement range. *)
Theorem X3_unpack_signed_twos_complement (data : bytes) :
  (unpack data true) mod 2 ^ (8 * len data) = unpack data false
  /\ (data <> [] ->
      - 2 ^ (8 * len data - 1) <= unpack data true < 2 ^ (8 * len data - 1)).
Proof.
  unfold unpack, from_bytes_little_signed.
  pose proof (from_bytes_little_bound data) as Hu.
  pose proof (len_nonneg data) as Hn.
  set (u := from_bytes_little data) in *. set (n := len data) in *.
  assert (Hpow : 0 < n -> 2 ^ (8 * n) = 2 * 2 ^ (8 * n - 1)).
  { intros Hpos. replace (8 * n) with (1 + (8 * n - 1)) at 1 by lia.
    rewrite Z.pow_add_r by lia. reflexivity. }
  split.
  - destruct ((0 <? 8 * n) && (2 ^ (8 * n - 1) <=? u)) eqn:E.
    + replace (u - 2 ^ (8 * n)) with (u + (-1) * 2 ^ (8 * n)) by ring.
      rewrite Z.mod_add by lia. apply Z.mod_small. lia.
    + apply Z.mod_small. lia.
  - intros Hne. assert (Hpos : 0 < n).
    { unfold n, len. destruct data; [contradiction | cbn [List.length]; lia]. }
    specialize (Hpow Hpos).
    destruct (Z.ltb_spec 0 (8 * n)); [|lia]. cbn [andb].
    destruct (Z.leb_spec (2 ^ (8 * n - 1)) u); lia.
Qed.

Lemma X3_unpack_signed_twos_complement_witness :
  - 2 ^ (8 * len [xfb] - 1) <= unpack [xfb] true < 2 ^ (8 * len [xfb] - 1).
Proof.
  apply (proj2 (X3_unpack_signed_twos_complement [xfb])). discriminate.
Defined.

(** ** The data-run decoder: how it ends *)

Lemma index_raises_index_error {A : Type} (data : list A) (i : Z) (e : exn) :
  index data i = Raise e -> e = IndexError.
Proof.
  unfold index. destruct (_ <? 0); [congruence|].
  destruct (nth_error _ _); congruence.
Qed.

Lemma index_ok_in_range {A : Type} (data : list A) (i : Z) :
  0 <= i < len data -> exists a, index data i = Ok a.
Proof.
  intros Hi. rewrite index_nonneg by lia.
  destruct (nth_error data (Z.to_nat i)) eqn:E; [eauto|].
  apply nth_error_None in E. unfold len in *; lia.
Qed.

Lemma list_range_raises (a b : Z) (e : exn) :
  list_range a b = Raise e -> e = OverflowError \/ e = MemoryError.
Proof.
  unfold list_range. destruct (_ <? _); [intros [= <-]; auto|].
  destruct (_ <? _); [intros [= <-]; auto | discriminate].
Qed.

(** The loop can fail only on an index past the end or on a run whose
    cluster list cannot be built. *)
Lemma run_loop_raises_decoder_error (attribute : bytes) (fuel : nat) :
  forall ro fb prev acc e,
    0 <= ro < len attribute ->
    run_loop fuel attribute (ro, fb, prev, acc) = Some (Raise e) ->
    decoder_error e.
Proof.
  induction fuel as [|fuel IH]; intros ro fb prev acc e Hro.
  - cbn [run_loop]. destruct (fb =? 0); discriminate.
  - destruct (Z.eq_dec fb 0) as [->|Hfb]; [rewrite run_loop_done; discriminate|].
    destruct (index_ok_in_range attribute ro Hro) as [h Eh].
    rewrite (run_loop_round _ _ h) by (auto using slice_one with zarith).
    unfold run_step.
    pose proof (byte_val_range h) as Hb.
    assert (0 <= byte_val h / 16) by (apply Z.div_pos; lia).
    assert (0 <= byte_val h mod 16) by (apply Z.mod_pos_bound; lia).
    destruct (list_range _ _) as [clusters|e'] eqn:El; cbn [bind].
    2:{ intros [= <-]. right. exact (list_range_raises _ _ _ El). }
    destruct (index attribute (ro + byte_val h mod 16 + 1 + byte_val h / 16)) as [b|e'] eqn:Eb;
      cbn [bind].
    + apply IH. split; [lia|]. apply (index_in_range _ _ b); [lia | exact Eb].
    + intros [= <-]. left. exact (index_raises_index_error _ _ _ Eb).
Qed.

(** The loop can return a list only after it has read a zero header
    byte at or after the offset it started from. *)
Lemma run_loop_ok_reads_terminator (attribute : bytes) (fuel : nat) :
  forall ro h prev acc l,
    0 <= ro ->
    index attribute ro = Ok h ->
    run_loop fuel attribute (ro, byte_val h, prev, acc) = Some (Ok l) ->
    exists k b, ro <= k /\ index attribute k = Ok b /\ byte_val b = 0.
Proof.
  induction fuel as [|fuel IH]; intros ro h prev acc l Hro Eh.
  - cbn [run_loop]. destruct (Z.eqb_spec (byte_val h) 0); [|discriminate].
    intros _. exists ro, h. auto with zarith.
  - destruct (Z.eq_dec (byte_val h) 0) as [Hz|Hnz].
    + intros _. exists ro, h. auto with zarith.
    + rewrite (run_loop_round _ _ h) by (auto using slice_one).
      unfold run_step.
      pose proof (byte_val_range h) as Hb.
      assert (0 <= byte_val h / 16) by (apply Z.div_pos; lia).
      assert (0 <= byte_val h mod 16) by (apply Z.mod_pos_bound; lia).
      destruct (list_range _ _) as [clusters|e']; cbn [bind]; [|discriminate].
      destruct (index attribute (ro + byte_val h mod 16 + 1 + byte_val h / 16)) as [b|e'] eqn:Eb;
        cbn [bind]; [|discriminate].
      intros Hrun.
      assert (Hnext : 0 <= ro + byte_val h mod 16 + 1 + byte_val h / 16) by lia.
      destruct (IH _ _ _ _ _ Hnext Eb Hrun) as (k & b' & Hk & Hb' & Hz).
      exists k, b'. split; [lia | auto].
Qed.

(** Decoding a located $DATA attribute always ends once the round
    budget covers the attribute's length, with a record or with one of
    the decoder's errors. *)
Lemma parse_data_of_outcomes (fuel : nat) (attribute : bytes) :
  (List.length attribute <= fuel)%nat ->
  (exists d, parse_data_of fuel attribute = Some (Ok d))
  \/ (exists e, parse_data_of fuel attribute = Some (Raise e) /\ decoder_error e).
Proof.
  intros Hfuel. unfold parse_data_of.
  destruct (index attribute 8) as [flag|e] eqn:Eflag.
  2:{ right. exists e. split; [reflexivity|]. left.
      exact (index_raises_index_error _ _ _ Eflag). }
  destruct (byte_val flag =? 0); [left; eauto|].
  pose proof (from_bytes_little_nonneg (slice attribute 32 34)) as Hnn.
  unfold unpack in *.
  set (ro := from_bytes_little (slice attribute 32 34)) in *.
  destruct (index attribute ro) as [fb|e] eqn:Efb.
  2:{ right. exists e. split; [reflexivity|]. left.
      exact (index_raises_index_error _ _ _ Efb). }
  pose proof (index_in_range _ _ _ Hnn Efb) as Hlt.
  destruct (run_loop_terminates attribute fuel ro (byte_val fb) 0 [])
    as [r Hr]; [lia | unfold len in *; lia |].
  rewrite Hr. destruct r as [l|e]; [left; eauto|].
  right. exists e. split; [reflexivity|].
  assert (Hin : 0 <= ro < len attribute) by lia.
  exact (run_loop_raises_decoder_error _ _ _ _ _ _ _ Hin Hr).
Qed.

(** X4.  Decoding a located $DATA attribute always ends once the round
    budget covers the attribute's length: the run-list loop cannot spin.
    It ends with a record, with [IndexError], or, when a run is too long
    for its cluster list to be built, with [OverflowError] or
    [MemoryError]; the text conversions of the nibbles never fail. *)
Theorem X4_decoder_ends_with_record_or_decoder_error (fuel : nat) (attribute : bytes) :
  (List.length attribute <= fuel)%nat ->
  (exists d, parse_data_of fuel attribute = Some (Ok d))
  \/ (exists e, parse_data_of fuel attribute = Some (Raise e)
                /\ (e = IndexError \/ e = OverflowError \/ e = MemoryError)).
Proof. apply parse_data_of_outcomes. Qed.

Lemma X4_decoder_ends_with_record_or_decoder_error_witness :
  (exists d, parse_data_of 72 data_attr_two_runs = Some (Ok d))
  \/ (exists e, parse_data_of 72 data_attr_two_runs = Some (Raise e)
                /\ (e = IndexError \/ e = OverflowError \/ e = MemoryError)).
Proof.
  apply (X4_decoder_ends_with_record_or_decoder_error 72 data_attr_two_runs).
  vm_compute. repeat constructor.
Defined.

(** X5.  A non-resident attribute whose bytes from the run-list offset to
    its end contain no zero byte is never decoded to a record: without a
    terminator the loop runs until it fails, with [IndexError] when it
    leaves the attribute, or before that with [OverflowError] or
    [MemoryError] at a run whose cluster list cannot be built. *)
Theorem X5_unterminated_run_list_never_decodes (fuel : nat) (attribute : bytes)
  (flag : byte) :
  index attribute 8 = Ok flag ->
  byte_val flag <> 0 ->
  (forall k b, unpack (slice attribute 32 34) false <= k ->
               index attribute k = Ok b -> byte_val b <> 0) ->
  (List.length attribute <= fuel)%nat ->
  exists e, parse_data_of fuel attribute = Some (Raise e)
            /\ (e = IndexError \/ e = OverflowError \/ e = MemoryError).
Proof.
  intros Hflag Hnz Hnoterm Hfuel.
  destruct (parse_data_of_outcomes fuel attribute Hfuel) as [[d Hd]|H]; [|exact H].
  exfalso. revert Hd. unfold parse_data_of. rewrite Hflag.
  destruct (Z.eqb_spec (byte_val flag) 0); [contradiction|].
  pose proof (from_bytes_little_nonneg (slice attribute 32 34)) as Hnn.
  unfold unpack in *.
  set (ro := from_bytes_little (slice attribute 32 34)) in *.
  destruct (index attribute ro) as [fb|e] eqn:Efb; [|discriminate].
  destruct (run_loop fuel attribute (ro, byte_val fb, 0, [])) as [[l|e]|] eqn:Hr;
    try discriminate.
  intros _.
  destruct (run_loop_ok_reads_terminator _ _ _ _ _ _ _ Hnn Efb Hr) as (k & b & Hk & Hb & Hz).
  exact (Hnoterm k b Hk Hb Hz).
Qed.

Lemma X5_unterminated_run_list_never_decodes_witness :
  exists e, parse_data_of 67 data_attr_unterminated = Some (Raise e)
            /\ (e = IndexError \/ e = OverflowError \/ e = MemoryError).
Proof.
  apply (X5_unterminated_run_list_never_decodes 67 data_attr_unterminated x01).
  - reflexivity.
  - vm_compute; discriminate.
  - intros k b Hk Hb.
    change (unpack (slice data_attr_unterminated 32 34) false) with 64 in Hk.
    assert (Hlt : k < 67) by (apply (index_in_range data_attr_unterminated k b); [lia | exact Hb]).
    assert (Hcases : k = 64 \/ k = 65 \/ k = 66) by lia.
    destruct Hcases as [-> | [-> | ->]]; vm_compute in Hb;
      injection Hb as <-; vm_compute; discriminate.
  - vm_compute. repeat constructor.
Defined.

(** X6.  The decoded clusters depend on the run-list bytes alone.  When
    the bytes [runs] decode on their own to [sector_list], every
    non-resident attribute that holds them at its stored run-list offset
    decodes to the same [sector_list], whatever comes before or after. *)
Theorem X6_clusters_depend_on_run_list_only (fuel : nat) (runs : bytes) (fb : byte)
  (sector_list : list Z) (pre post : bytes) (flag : byte) :
  index runs 0 = Ok fb ->
  run_loop fuel runs (0, byte_val fb, 0, []) = Some (Ok sector_list) ->
  index (pre ++ runs ++ post) 8 = Ok flag ->
  byte_val flag <> 0 ->
  unpack (slice (pre ++ runs ++ post) 32 34) false = len pre ->
  exists d, parse_data_of fuel (pre ++ runs ++ post) = Some (Ok d)
            /\ data_dict.sector_list d = Some sector_list.
Proof.
  intros Hfb Hrun Hflag Hnz Hro. eexists. split.
  - apply (parse_data_of_runs fuel pre runs post flag sector_list Hflag Hnz Hro).
    now rewrite Hfb.
  - reflexivity.
Qed.

Lemma X6_clusters_depend_on_run_list_only_witness :
  exists d, parse_data_of 2 data_attr_sparse = Some (Ok d)
            /\ data_dict.sector_list d = Some [16; 17; 18; 16; 17].
Proof.
  apply (X6_clusters_depend_on_run_list_only 2 [x11; x03; x10; x01; x02; x00] x11
           [16; 17; 18; 16; 17] nonresident_header [x00; x00] x01).
  - reflexivity.
  - vm_compute. reflexivity.
  - reflexivity.
  - vm_compute; discriminate.
  - reflexivity.
Defined.

(** *** Later runs are relative to earlier ones *)

Lemma range_shift (p a b : Z) : range (p + a) (p + b) = map (Z.add p) (range a b).
Proof.
  unfold range. rewrite map_map.
  replace (p + b - (p + a)) with (b - a) by lia.
  apply map_ext. intros k. lia.
Qed.

Lemma list_range_shift (p a b : Z) :
  list_range (p + a) (p + b)
  = match list_range a b with
    | Ok l => Ok (map (Z.add p) l)
    | Raise e => Raise e
    end.
Proof.
  unfold list_range. replace (p + b - (p + a)) with (b - a) by lia.
  destruct (_ <? _); [reflexivity|]. destruct (_ <? _); [reflexivity|].
  now rewrite range_shift.
Qed.

Lemma run_body_shift (attribute : bytes) (ro fb prev : Z) (acc : list Z) :
  run_body attribute (ro, fb, prev, acc)
  = match run_body attribute (ro, fb, 0, []) with
    | Ok (ro', fb', c, l) => Ok (ro', fb', prev + c, acc ++ map (Z.add prev) l)
    | Raise e => Raise e
    end.
Proof.
  unfold run_body.
  destruct (int_base2 (str_slice _ 0 4)) as [o|e]; cbn [bind]; [|reflexivity].
  destruct (int_base2 (str_slice _ 4 8)) as [n|e]; cbn [bind]; [|reflexivity].
  rewrite !Z.add_0_l.
  match goal with
  | |- context [list_range (prev + ?c) (prev + ?c + ?len)] =>
    replace (prev + c + len) with (prev + (c + len)) by lia
  end.
  rewrite list_range_shift.
  destruct (list_range _ _) as [clusters|e]; cbn [bind]; [|reflexivity].
  destruct (index attribute _) as [b|e]; cbn [bind]; reflexivity.
Qed.

(** X7.  The loop never touches what it has already emitted, and it
    decodes the rest of a run list relative to the running cluster value:
    started with clusters [acc] and running value [prev], it returns [acc]
    followed by what the same bytes decode to from 0, each cluster raised
    by [prev]; it fails or is still running exactly when that decoding is. *)
Theorem X7_rest_of_run_list_is_relative (attribute : bytes) (fuel : nat) :
  forall ro fb prev acc,
    run_loop fuel attribute (ro, fb, prev, acc)
    = match run_loop fuel attribute (ro, fb, 0, []) with
      | Some (Ok l) => Some (Ok (acc ++ map (Z.add prev) l))
      | Some (Raise e) => Some (Raise e)
      | None => None
      end.
Proof.
  induction fuel as [|fuel IH]; intros ro fb prev acc; cbn [run_loop].
  - destruct (fb =? 0); [|reflexivity]. cbn [map]. now rewrite app_nil_r.
  - destruct (fb =? 0); [cbn [map]; now rewrite app_nil_r|].
    rewrite (run_body_shift attribute ro fb prev acc).
    destruct (run_body attribute (ro, fb, 0, [])) as [[[[ro' fb'] c] l]|e]; [|reflexivity].
    rewrite (IH ro' fb' (prev + c) (acc ++ map (Z.add prev) l)).
    rewrite (IH ro' fb' c l).
    destruct (run_loop fuel attribute (ro', fb', 0, [])) as [[l0|e]|]; try reflexivity.
    do 2 f_equal. rewrite <- app_assoc, map_app, map_map. do 2 f_equal.
    apply map_ext. intros x. lia.
Qed.

(** ** The attribute walker: what it returns *)

Lemma slice_nil_of_ge {A : Type} (data : list A) (i j : Z) :
  0 <= j -> j <= i -> slice data i j = [].
Proof.
  intros Hi Hj. unfold slice. pose proof (len_nonneg data) as Hn.
  replace (Z.to_nat (clamp (len data) j - clamp (len data) i)) with 0%nat; [reflexivity|].
  unfold clamp. destruct (Z.ltb_spec i 0); [lia|].
  destruct (Z.ltb_spec j 0); lia.
Qed.

Lemma slice_len_le {A : Type} (data : list A) (i j : Z) :
  0 <= i -> 0 <= j -> len (slice data i j) <= Z.max 0 (j - i).
Proof.
  intros Hi Hj. unfold slice. pose proof (len_nonneg data) as Hn.
  unfold len at 1. rewrite length_firstn.
  assert (clamp (len data) j - clamp (len data) i <= Z.max 0 (j - i)).
  { unfold clamp. destruct (Z.ltb_spec i 0); [lia|].
    destruct (Z.ltb_spec j 0); lia. }
  lia.
Qed.

(** While the loop test holds, only the offset matters. *)
Lemma walk_loop_same_offset (fuel : nat) (attr_id : Z) (entry : bytes)
  (a1 a2 : bytes) (c1 c2 p : Z) :
  walk_test attr_id (a1, c1, p) = true ->
  walk_test attr_id (a2, c2, p) = true ->
  walk_loop fuel attr_id entry (a1, c1, p) = walk_loop fuel attr_id entry (a2, c2, p).
Proof.
  intros H1 H2. destruct fuel; cbn [walk_loop]; rewrite H1, H2; reflexivity.
Qed.

Lemma walk_test_initial (attr_id q : Z) :
  attr_id <> 0 -> walk_test attr_id ([x00; x00; x00; x00], q, q) = true.
Proof.
  intros Hid. cbn [walk_test]. apply negb_true_iff, Z.eqb_neq.
  change (unpack (slice_to [x00; x00; x00; x00] 4) false) with 0. congruence.
Qed.

(** Searching for a type code other than 0 from [p] is one look at the
    candidate at [p], then the same search from where the candidate ends. *)
Lemma get_attr_by_id_unfold (fuel : nat) (attr_id : Z) (entry : bytes) (p : Z) :
  attr_id <> 0 ->
  let length := unpack (slice entry (p + 4) (p + 8)) false in
  let record := slice entry p (p + length) in
  get_attr_by_id (S fuel) attr_id entry p
  = if unpack (slice_to record 4) false =? attr_id then Some (record, p + length)
    else get_attr_by_id fuel attr_id entry (p + length).
Proof.
  intros Hid length record. unfold get_attr_by_id.
  cbn [walk_loop]. rewrite (walk_test_initial attr_id p Hid).
  cbn [walk_body]. fold length. fold record.
  destruct (Z.eqb_spec (unpack (slice_to record 4) false) attr_id) as [Heq|Hne].
  - destruct fuel; cbn [walk_loop walk_test]; rewrite Heq, Z.eqb_refl; reflexivity.
  - apply walk_loop_same_offset; [|now apply walk_test_initial].
    cbn [walk_test]. now apply negb_true_iff, Z.eqb_neq.
Qed.

(** X8.  For a type code other than 0 the search from [p] looks at the
    candidate at [p] and, when its type differs, is the search from
    [p + length]: attributes are chained by their declared lengths, and a
    search may be resumed from any attribute boundary. *)
Theorem X8_walker_resumes_at_next_boundary (fuel : nat) (attr_id : Z) (entry : bytes)
  (p : Z) :
  attr_id <> 0 ->
  let length := unpack (slice entry (p + 4) (p + 8)) false in
  let record := slice entry p (p + length) in
  get_attr_by_id (S fuel) attr_id entry p
  = if unpack (slice_to record 4) false =? attr_id then Some (record, p + length)
    else get_attr_by_id fuel attr_id entry (p + length).
Proof. apply get_attr_by_id_unfold. Qed.

Lemma X8_walker_resumes_at_next_boundary_witness :
  get_attr_by_id 2 0x80 two_attributes 0 = get_attr_by_id 1 0x80 two_attributes 80.
Proof.
  rewrite (X8_walker_resumes_at_next_boundary 1 0x80 two_attributes 0).
  - reflexivity.
  - discriminate.
Defined.

Lemma walk_loop_result (attr_id : Z) (entry : bytes) (fuel : nat) :
  forall a c p record next,
    0 <= p ->
    walk_test attr_id (a, c, p) = true ->
    walk_loop fuel attr_id entry (a, c, p) = Some (record, next) ->
    exists q, p <= q
              /\ record = slice entry q next
              /\ next = q + unpack (slice entry (q + 4) (q + 8)) false.
Proof.
  induction fuel as [|fuel IH]; intros a c p record next Hp Ht;
    cbn [walk_loop]; rewrite Ht; [discriminate|].
  cbn [walk_body].
  pose proof (from_bytes_little_nonneg (slice entry (p + 4) (p + 8))) as HL.
  set (L := unpack (slice entry (p + 4) (p + 8)) false) in *.
  change (from_bytes_little (slice entry (p + 4) (p + 8))) with L in HL.
  destruct (walk_test attr_id (slice entry p (p + L), p + L, p + L)) eqn:Et.
  - intros H. assert (Hp' : 0 <= p + L) by lia.
    destruct (IH _ _ _ _ _ Hp' Et H) as (q & Hq & Hr & Hn).
    exists q. split; [lia | auto].
  - intros H. assert (H' : Some (slice entry p (p + L), p + L) = Some (record, next)).
    { rewrite <- H. destruct fuel; cbn [walk_loop]; rewrite Et; reflexivity. }
    injection H' as <- <-. exists p. split; [lia | auto].
Qed.

Lemma slice_clamp_hi {A : Type} (data : list A) (i j : Z) :
  len data <= j -> slice data i j = slice data i (len data).
Proof.
  intros Hj. unfold slice. pose proof (len_nonneg data) as Hn.
  replace (clamp (len data) j) with (clamp (len data) (len data)); [reflexivity|].
  unfold clamp. destruct (Z.ltb_spec (len data) 0), (Z.ltb_spec j 0); lia.
Qed.

(** What a successful search from a non-negative offset returns. *)
Lemma get_attr_by_id_result (fuel : nat) (attr_id : Z) (entry : bytes)
  (prev_attr_end : Z) (record : bytes) (next : Z) :
  attr_id <> 0 ->
  0 <= prev_attr_end ->
  get_attr_by_id fuel attr_id entry prev_attr_end = Some (record, next) ->
  exists q, prev_attr_end <= q < next
            /\ q < len entry
            /\ record = slice entry q next
            /\ next - q = unpack (slice entry (q + 4) (q + 8)) false
            /\ unpack (slice_to record 4) false = attr_id.
Proof.
  intros Hid Hp Hget.
  pose proof (walk_loop_returns_match _ _ _ _ _ _ Hget) as Hty.
  destruct (walk_loop_result _ _ _ _ _ _ _ _ Hp (walk_test_initial attr_id _ Hid) Hget)
    as (q & Hq & Hr & Hn).
  pose proof (from_bytes_little_nonneg (slice entry (q + 4) (q + 8))) as HL.
  unfold unpack in Hn.
  assert (Hne : record <> []).
  { intros ->. apply Hid. rewrite <- Hty. reflexivity. }
  exists q. repeat split; auto; try lia.
  - destruct (Z_lt_ge_dec q next) as [?|Hge]; [assumption|].
    exfalso. apply Hne. rewrite Hr. apply slice_nil_of_ge; lia.
  - destruct (Z_lt_ge_dec q (len entry)) as [?|Hge]; [assumption|].
    exfalso. apply Hne. rewrite Hr. apply slice_past_end. lia.
  - unfold unpack. lia.
Qed.

(** X9.  When a search for a type code other than 0, started at a
    non-negative offset, returns, the record is the bytes of the entry
    from some attribute boundary [q] at or after the start up to the
    returned offset; that offset is [q] plus the length declared at
    [q + 4]; the record starts inside the entry and carries the requested
    type; and the returned offset lies strictly beyond the start, so that
    chained searches move forward. *)
Theorem X9_walker_returns_a_forward_slice (fuel : nat) (attr_id : Z) (entry : bytes)
  (prev_attr_end : Z) (record : bytes) (next : Z) :
  attr_id <> 0 ->
  0 <= prev_attr_end ->
  get_attr_by_id fuel attr_id entry prev_attr_end = Some (record, next) ->
  exists q, prev_attr_end <= q < next
            /\ q < len entry
            /\ record = slice entry q next
            /\ next - q = unpack (slice entry (q + 4) (q + 8)) false
            /\ unpack (slice_to record 4) false = attr_id.
Proof. apply get_attr_by_id_result. Qed.

Lemma X9_walker_returns_a_forward_slice_witness :
  exists q, 0 <= q < 152
            /\ q < len two_attributes
            /\ data_attr_single_run = slice two_attributes q 152
            /\ 152 - q = unpack (slice two_attributes (q + 4) (q + 8)) false
            /\ unpack (slice_to data_attr_single_run 4) false = 0x80.
Proof.
  apply (X9_walker_returns_a_forward_slice 2 0x80 two_attributes 0).
  - discriminate.
  - lia.
  - reflexivity.
Defined.

(** X10.  For an attribute returned by a search from a non-negative
    offset, the end bound [attr_end + 1] that the parsers put on the
    content slice never cuts anything off: the content is the whole rest
    of the attribute from the header-stored content offset. *)
Theorem X10_content_is_rest_of_attribute (fuel : nat) (attr_id : Z) (entry : bytes)
  (prev_attr_end : Z) (attribute : bytes) (attr_end : Z) :
  attr_id <> 0 ->
  0 <= prev_attr_end ->
  get_attr_by_id fuel attr_id entry prev_attr_end = Some (attribute, attr_end) ->
  content_of attribute attr_end
  = slice attribute (unpack (slice attribute 20 22) false) (len attribute).
Proof.
  intros Hid Hp Hget.
  destruct (get_attr_by_id_result _ _ _ _ _ _ Hid Hp Hget)
    as (q & Hq & Hin & Hr & Hn & _).
  unfold content_of. apply slice_clamp_hi.
  assert (Hq0 : 0 <= q) by lia. assert (He0 : 0 <= attr_end) by lia.
  pose proof (slice_len_le entry q attr_end Hq0 He0) as Hle.
  rewrite <- Hr in Hle. lia.
Qed.

Lemma X10_content_is_rest_of_attribute_witness :
  content_of std_info_named 80
  = slice std_info_named (unpack (slice std_info_named 20 22) false) (len std_info_named).
Proof.
  apply (X10_content_is_rest_of_attribute 1 0x10 two_attributes 0).
  - discriminate.
  - lia.
  - reflexivity.
Defined.

(** ** The fixup array: entries that are already corrected *)

Lemma entry_quarters (entry : bytes) :
  len entry = 1024 ->
  entry = slice entry 0 510 ++ slice entry 510 512
          ++ slice entry 512 1022 ++ slice entry 1022 1024.
Proof.
  intros Hlen.
  rewrite <- (slice_split entry 512 1022 1024), <- (slice_split entry 510 512 1024),
    <- (slice_split entry 0 510 1024) by lia.
  rewrite <- Hlen. symmetry. apply slice_all.
Qed.

Lemma apply_fixup_valid (entry : bytes) :
  valid_entry entry ->
  apply_fixup entry
  = Ok (slice entry 0 510
        ++ slice entry (fixup_offset entry + 2) (fixup_offset entry + 4)
        ++ slice entry 512 1022
        ++ slice entry (fixup_offset entry + 4) (fixup_offset entry + 6)).
Proof.
  intros (Hlen & Hsig & Hcount & Hin).
  pose proof (from_bytes_little_nonneg (slice entry 4 6)) as Hoff.
  fold (fixup_offset entry) in Hoff.
  unfold apply_fixup. rewrite Hsig.
  change (negb (bytes_eqb FILE FILE)) with false. cbv iota.
  fold (fixup_offset entry) (fixup_count entry).
  set (f := fixup_offset entry) in *. set (n := fixup_count entry) in *.
  rewrite !(slice_slice entry (f + 2) (f + 2 * n)) by lia.
  replace (f + 2 + 0) with (f + 2) by lia.
  replace (f + 2 + 2) with (f + 4) by lia.
  replace (f + 2 + 4) with (f + 6) by lia.
  reflexivity.
Qed.

Lemma apply_fixup_noop (entry : bytes) :
  valid_entry entry ->
  slice entry 510 512 = slice entry (fixup_offset entry + 2) (fixup_offset entry + 4) ->
  slice entry 1022 1024 = slice entry (fixup_offset entry + 4) (fixup_offset entry + 6) ->
  apply_fixup entry = Ok entry.
Proof.
  intros Hv H1 H2. rewrite (apply_fixup_valid entry Hv), <- H1, <- H2.
  destruct Hv as (Hlen & _). now rewrite <- (entry_quarters entry Hlen).
Qed.

Lemma slice_prefix {A : Type} (p r : list A) (i j : Z) :
  0 <= i -> i <= j -> j <= len p -> slice (p ++ r) i j = slice p i j.
Proof.
  intros Hi Hij Hj.
  exact (slice_in_app [] p r i j Hi Hij Hj).
Qed.

(** X11.  An entry whose two sector tails already hold the pairs stored
    in its fixup array comes back unchanged. *)
Theorem X11_fixup_leaves_corrected_entry (entry : bytes) :
  valid_entry entry ->
  slice entry 510 512 = slice entry (fixup_offset entry + 2) (fixup_offset entry + 4) ->
  slice entry 1022 1024 = slice entry (fixup_offset entry + 4) (fixup_offset entry + 6) ->
  apply_fixup entry = Ok entry.
Proof. apply apply_fixup_noop. Qed.

(** X12.  Correcting twice is correcting once: when the two pairs used
    lie before the first sector tail (as they do for a fixup array in the
    entry header), the corrected entry is again a valid entry and the
    corrector maps it to itself. *)
Theorem X12_fixup_is_idempotent (entry out : bytes) :
  valid_entry entry ->
  fixup_offset entry + 6 <= 510 ->
  apply_fixup entry = Ok out ->
  valid_entry out /\ apply_fixup out = Ok out.
Proof.
  intros Hv Hbefore Hout.
  pose proof Hv as (Hlen & Hsig & Hcount & Hin).
  pose proof (from_bytes_little_nonneg (slice entry 4 6)) as Hoff.
  fold (fixup_offset entry) in Hoff.
  rewrite (apply_fixup_valid entry Hv) in Hout. injection Hout as Hout.
  set (f := fixup_offset entry) in *.
  destruct (slice_parts entry 0 510) as (_ & _ & _ & _ & H1); try lia.
  destruct (slice_parts entry 510 512) as (_ & _ & _ & _ & Ha); try lia.
  destruct (slice_parts entry 512 1022) as (_ & _ & _ & _ & H2); try lia.
  destruct (slice_parts entry 1022 1024) as (_ & _ & _ & _ & Hb); try lia.
  destruct (slice_parts entry (f + 2) (f + 4)) as (_ & _ & _ & _ & Ha'); try lia.
  destruct (slice_parts entry (f + 4) (f + 6)) as (_ & _ & _ & _ & Hb'); try lia.
  pose proof (sector_tails_replaced
                (slice entry 0 510) (slice entry 510 512)
                (slice entry 512 1022) (slice entry 1022 1024)
                (slice entry (f + 2) (f + 4)) (slice entry (f + 4) (f + 6))
                ltac:(lia) ltac:(lia) ltac:(lia) ltac:(lia) ltac:(lia) ltac:(lia)) as Hs.
  cbv zeta in Hs. rewrite Hout in Hs. destruct Hs as (Hlo & Ht1 & Ht2 & _).
  assert (Hlow : forall i j, 0 <= i -> i <= j -> j <= 510 -> slice out i j = slice entry i j).
  { intros i j Hi Hij Hj. rewrite <- Hout.
    rewrite slice_prefix by lia. rewrite slice_slice by lia.
    now rewrite !Z.add_0_l. }
  assert (Hf : fixup_offset out = f).
  { unfold fixup_offset. rewrite Hlow by lia. reflexivity. }
  assert (Hc : fixup_count out = fixup_count entry).
  { unfold fixup_count. rewrite Hlow by lia. reflexivity. }
  assert (Hvo : valid_entry out).
  { unfold valid_entry. rewrite Hf, Hc, Hlow by lia. auto. }
  split; [exact Hvo|].
  apply apply_fixup_noop; [exact Hvo | |]; rewrite Hf.
  - rewrite (Hlow (f + 2) (f + 4)) by lia. exact Ht1.
  - rewrite (Hlow (f + 4) (f + 6)) by lia. exact Ht2.
Qed.

Lemma X11_fixup_leaves_corrected_entry_witness :
  apply_fixup fixed_sample_entry = Ok fixed_sample_entry.
Proof.
  apply (X11_fixup_leaves_corrected_entry fixed_sample_entry).
  - unfold valid_entry. repeat split; vm_compute; (reflexivity || discriminate).
  - vm_compute. reflexivity.
  - vm_compute. reflexivity.
Defined.

Lemma X12_fixup_is_idempotent_witness :
  valid_entry fixed_sample_entry
  /\ apply_fixup fixed_sample_entry = Ok fixed_sample_entry.
Proof.
  apply (X12_fixup_is_idempotent fixup_sample_entry fixed_sample_entry).
  - unfold valid_entry. repeat split; vm_compute; (reflexivity || discriminate).
  - vm_compute. discriminate.
  - vm_compute. reflexivity.
Defined.

(** X13.  The corrector never looks at the two sector tails it
    overwrites, and never compares them with the update-sequence number:
    two 1024-byte entries that agree everywhere except possibly in bytes
    510-511 and 1022-1023 are corrected to the same buffer (for a fixup
    array that lies before the first sector tail). *)
Theorem X13_fixup_ignores_sector_tails (entry entry' : bytes) :
  valid_entry entry ->
  fixup_offset entry + 6 <= 510 ->
  len entry' = 1024 ->
  slice entry' 0 510 = slice entry 0 510 ->
  slice entry' 512 1022 = slice entry 512 1022 ->
  apply_fixup entry' = apply_fixup entry.
Proof.
  intros Hv Hbefore Hlen' Hp1 Hp2.
  pose proof Hv as (Hlen & Hsig & Hcount & Hin).
  pose proof (from_bytes_little_nonneg (slice entry 4 6)) as Hoff.
  fold (fixup_offset entry) in Hoff.
  assert (Hlow : forall i j, 0 <= i -> i <= j -> j <= 510 ->
                             slice entry' i j = slice entry i j).
  { intros i j Hi Hij Hj.
    rewrite <- (Z.add_0_l i), <- (Z.add_0_l j).
    rewrite <- (slice_slice entry' 0 510 i j), <- (slice_slice entry 0 510 i j) by lia.
    now rewrite Hp1. }
  assert (Hf : fixup_offset entry' = fixup_offset entry).
  { unfold fixup_offset. rewrite Hlow by lia. reflexivity. }
  assert (Hc : fixup_count entry' = fixup_count entry).
  { unfold fixup_count. rewrite Hlow by lia. reflexivity. }
  assert (Hv' : valid_entry entry').
  { unfold valid_entry. rewrite Hf, Hc, Hlow by lia. auto. }
  rewrite (apply_fixup_valid entry Hv), (apply_fixup_valid entry' Hv'), Hf.
  rewrite Hp1, Hp2.
  rewrite (Hlow (fixup_offset entry + 2) (fixup_offset entry + 4)) by lia.
  rewrite (Hlow (fixup_offset entry + 4) (fixup_offset entry + 6)) by lia.
  reflexivity.
Qed.

Lemma X13_fixup_ignores_sector_tails_witness :
  apply_fixup fixed_sample_entry = apply_fixup fixup_sample_entry.
Proof.
  apply (X13_fixup_ignores_sector_tails fixup_sample_entry fixed_sample_entry).
  - unfold valid_entry. repeat split; vm_compute; (reflexivity || discriminate).
  - vm_compute. discriminate.
  - reflexivity.
  - vm_compute. reflexivity.
  - vm_compute. reflexivity.
Defined.

(** ** The image file *)



(** X14.  Opening an image never fails, whatever its size: the boot
    fields missing from a short image read as 0.  The entry size is 1024,
    the MFT offset is the product of the three boot fields, so it is never
    negative and stays below [2 ^ 88]; it is 0 for an image of at most 48
    bytes.  The file is left just after the boot sector (or at the end of
    a shorter image). *)
Theorem X14_init_never_fails (file : file_obj.t) :
  exists self,
    ParseMFT_init file = Return self
    /\ ParseMFT.bytes_per_entry self = 1024
    /\ ParseMFT.mft_byte_offset self
       = unpack (slice (file_obj.data file) 48 56) false
         * unpack (slice (file_obj.data file) 13 14) false
         * unpack (slice (file_obj.data file) 11 13) false
    /\ 0 <= ParseMFT.mft_byte_offset self < 2 ^ 88
    /\ (len (file_obj.data file) <= 48 -> ParseMFT.mft_byte_offset self = 0)
    /\ file_obj.data (ParseMFT.file self) = file_obj.data file
    /\ file_obj.position (ParseMFT.file self) = Z.min 512 (len (file_obj.data file)).
Proof.
  destruct file as [data pos limit]. unfold ParseMFT_init, seek, read.
  cbn [file_obj.data file_obj.position file_obj.max_offset].
  pose proof (len_nonneg data) as Hlen0.
  destruct (Z.leb_spec 0 (len data)); [|lia]. cbn [Z.leb Z.compare andb].
  eexists. split; [reflexivity|].
  cbn [ParseMFT.bytes_per_entry ParseMFT.mft_byte_offset ParseMFT.file
       file_obj.data file_obj.position].
  pose proof (len_nonneg data) as Hn.
  set (boot := slice data 0 (0 + 512)).
  assert (Hboot : forall i j, 0 <= i -> i <= j -> j <= 512 ->
                              slice boot i j = slice data i j).
  { intros i j Hi Hij Hj. unfold boot. cbn [Z.add].
    destruct (Z_le_gt_dec 512 (len data)).
    - rewrite slice_slice by lia. now rewrite !Z.add_0_l.
    - rewrite (slice_clamp_hi data 0 512) by lia. now rewrite slice_all. }
  rewrite !Hboot by lia.
  pose proof (from_bytes_little_bound (slice data 48 56)) as H1.
  pose proof (from_bytes_little_bound (slice data 13 14)) as H2.
  pose proof (from_bytes_little_bound (slice data 11 13)) as H3.
  pose proof (slice_len_le data 48 56 ltac:(lia) ltac:(lia)) as L1.
  pose proof (slice_len_le data 13 14 ltac:(lia) ltac:(lia)) as L2.
  pose proof (slice_len_le data 11 13 ltac:(lia) ltac:(lia)) as L3.
  pose proof (len_nonneg (slice data 48 56)).
  pose proof (len_nonneg (slice data 13 14)).
  pose proof (len_nonneg (slice data 11 13)).
  unfold unpack.
  set (a := from_bytes_little (slice data 48 56)) in *.
  set (b := from_bytes_little (slice data 13 14)) in *.
  set (c := from_bytes_little (slice data 11 13)) in *.
  assert (Ha : a < 2 ^ 64).
  { eapply Z.lt_le_trans; [apply H1|]. apply Z.pow_le_mono_r; lia. }
  assert (Hb : b < 2 ^ 8).
  { eapply Z.lt_le_trans; [apply H2|]. apply Z.pow_le_mono_r; lia. }
  assert (Hc : c < 2 ^ 16).
  { eapply Z.lt_le_trans; [apply H3|]. apply Z.pow_le_mono_r; lia. }
  split; [reflexivity|]. split; [reflexivity|]. split; [|split; [|split]].
  - change (2 ^ 88) with (2 ^ 64 * 2 ^ 8 * 2 ^ 16).
    assert (Hab : 0 <= a * b < 2 ^ 64 * 2 ^ 8).
    { split; [apply Z.mul_nonneg_nonneg; lia|].
      apply Z.mul_lt_mono_nonneg; lia. }
    split; [apply Z.mul_nonneg_nonneg; lia|].
    apply Z.mul_lt_mono_nonneg; lia.
  - intros Hshort. unfold a. rewrite slice_past_end by lia. reflexivity.
  - reflexivity.
  - unfold boot. cbn [Z.add]. rewrite slice_0_firstn by lia.
    unfold len. rewrite length_firstn. lia.
Qed.

Lemma X14_init_never_fails_witness :
  exists self,
    ParseMFT_init (file_obj.Build [x01; x02; x03] 7 (2 ^ 40)) = Return self
    /\ ParseMFT.mft_byte_offset self = 0
    /\ file_obj.position (ParseMFT.file self) = 3.
Proof.
  destruct (X14_init_never_fails (file_obj.Build [x01; x02; x03] 7 (2 ^ 40)))
    as (self & Hi & _ & _ & _ & Hz & _ & Hp).
  exists self. split; [exact Hi|]. split; [|exact Hp].
  apply Hz. vm_compute. discriminate.
Defined.

(** ** The entry assembler *)


Section AssemblyFacts.

Variable float : Type.
Variable true_div : Z -> Z -> result float.
Variable int_of_float : float -> result Z.
Variable datetime : Type.
Variable fromtimestamp : float -> result datetime.
Variable epoch_plus_seconds : Z -> result datetime.
Variable strftime_hms : datetime -> string.
Variable decode_utf_16_le : bytes -> result string.




End AssemblyFacts.



(** ** The attribute walker: attributes that are not there *)

(** X17.  A search for a type code other than 0 that, skipping the
    candidates of other types, reaches a candidate with a declared length
    of 0 never returns and never fails: an entry without the requested
    attribute (the walk then reaches the end marker or leaves the entry)
    keeps the walker spinning for any number of rounds. *)
Theorem X17_missing_attribute_never_returns (attr_id : Z) (entry : bytes) (p : Z) :
  attr_id <> 0 ->
  dead_end attr_id entry p ->
  forall fuel, get_attr_by_id fuel attr_id entry p = None.
Proof.
  intros Hid Hdead. induction Hdead as [p Hz | p Hne Hdead IH]; intros fuel.
  - now apply get_attr_by_id_stuck.
  - destruct fuel as [|fuel].
    + unfold get_attr_by_id. cbn [walk_loop].
      now rewrite (walk_test_initial attr_id p Hid).
    + rewrite (get_attr_by_id_unfold fuel attr_id entry p Hid). cbv zeta.
      destruct (Z.eqb_spec
                  (unpack (slice_to (slice entry p
                     (p + unpack (slice entry (p + 4) (p + 8)) false)) 4) false) attr_id);
        [contradiction | apply IH].
Qed.

Lemma X17_missing_attribute_never_returns_witness :
  get_attr_by_id 1000 0x80 attributes_without_data 0 = None.
Proof.
  apply (X17_missing_attribute_never_returns 0x80 attributes_without_data 0).
  - discriminate.
  - apply dead_end_later; [vm_compute; discriminate|].
    apply dead_end_here. reflexivity.
Defined.

(** ** The report helpers *)

Lemma flag_dump_names (value : Z) :
  flag_dump value
  = if String.eqb (flag_names value) EmptyString
    then (hex value ++ " (Unknown flag)")%string
    else flag_names value.
Proof. reflexivity. Qed.

Lemma string_app_empty (a b : string) :
  (a ++ b)%string = EmptyString -> a = EmptyString /\ b = EmptyString.
Proof. destruct a; cbn; [auto | discriminate]. Qed.

Lemma flag_fold_empty (value : Z) (table : list (Z * string)) :
  Forall (fun p => snd p <> EmptyString) table ->
  forall s,
    fold_left (fun s p => if Z.land value (fst p) =? 0 then s else (s ++ snd p)%string)
      table s = EmptyString ->
    s = EmptyString /\ Forall (fun p => Z.land value (fst p) = 0) table.
Proof.
  induction 1 as [|p table Hp _ IH]; intros s; cbn [fold_left]; [auto|].
  intros Hs. destruct (IH _ Hs) as [Hacc Hall].
  destruct (Z.eqb_spec (Z.land value (fst p)) 0) as [Hz|Hnz].
  - auto.
  - apply string_app_empty in Hacc. destruct Hacc as [_ Hacc]. contradiction.
Qed.

Lemma flag_fold_ext (v w : Z) (table : list (Z * string)) :
  Forall (fun p => Z.land v (fst p) = Z.land w (fst p)) table ->
  forall s,
    fold_left (fun s p => if Z.land v (fst p) =? 0 then s else (s ++ snd p)%string) table s
    = fold_left (fun s p => if Z.land w (fst p) =? 0 then s else (s ++ snd p)%string) table s.
Proof.
  induction 1 as [|p table Hp _ IH]; intros s; cbn [fold_left]; [reflexivity|].
  now rewrite Hp, IH.
Qed.

Lemma land_known_bit (value bit : Z) :
  Z.land known_flags bit = bit ->
  Z.land (Z.land value known_flags) bit = Z.land value bit.
Proof. intros H. now rewrite <- Z.land_assoc, H. Qed.

Lemma flag_table_known (value : Z) :
  Forall (fun p => Z.land (Z.land value known_flags) (fst p) = Z.land value (fst p))
    flag_table.
Proof. repeat constructor; apply land_known_bit; reflexivity. Qed.

Lemma flag_names_empty (value : Z) :
  flag_names value = EmptyString <-> Z.land value known_flags = 0.
Proof.
  split.
  - intros H. apply flag_fold_empty in H; [|repeat constructor; discriminate].
    destruct H as [_ Hall]. unfold flag_table in Hall.
    change known_flags with
      (Z.lor 0x0001 (Z.lor 0x0002 (Z.lor 0x0004 (Z.lor 0x0020 (Z.lor 0x0040
       (Z.lor 0x0080 (Z.lor 0x0100 (Z.lor 0x0200 (Z.lor 0x0400 (Z.lor 0x0800
       (Z.lor 0x1000 (Z.lor 0x2000 0x4000)))))))))))).
    rewrite !Z.land_lor_distr_r.
    repeat match goal with
           | H : Forall _ (_ :: _) |- _ => inversion H; clear H; subst
           end.
    cbn [fst] in *.
    repeat match goal with H : Z.land value _ = 0 |- _ => rewrite H; clear H end.
    reflexivity.
  - intros H. unfold flag_names.
    rewrite <- (flag_fold_ext _ _ _ (flag_table_known value)).
    rewrite H. reflexivity.
Qed.

(** X18.  [flag_dump] looks at the thirteen bits of [0x7FE7] only.  When
    none of them is set the text is the hexadecimal value followed by
    ["(Unknown flag)"]; as soon as one of them is set, all other bits of
    the value (such as [0x0008], [0x0010] or anything from [0x8000] up)
    are passed over in silence. *)
Theorem X18_flag_dump_known_bits_only (value : Z) :
  (Z.land value known_flags = 0 ->
   flag_dump value = (hex value ++ " (Unknown flag)")%string)
  /\ (Z.land value known_flags <> 0 ->
      flag_dump value = flag_dump (Z.land value known_flags)
      /\ flag_dump value <> EmptyString
      /\ flag_dump value = flag_names value).
Proof.
  rewrite !flag_dump_names. split.
  - intros H. apply flag_names_empty in H. now rewrite H.
  - intros H.
    assert (Hn : flag_names value <> EmptyString)
      by (intros E; apply H; now apply flag_names_empty).
    assert (He : flag_names (Z.land value known_flags) = flag_names value)
      by (apply flag_fold_ext, flag_table_known).
    rewrite He. apply String.eqb_neq in Hn. rewrite Hn.
    apply String.eqb_neq in Hn. auto.
Qed.

Lemma X18_flag_dump_known_bits_only_witness :
  flag_dump 0x8018 = "0x8018 (Unknown flag)"%string
  /\ flag_dump 0x8021 = flag_dump 0x21
  /\ flag_dump 0x8021 = "Read Only Archive "%string.
Proof.
  split.
  - apply (proj1 (X18_flag_dump_known_bits_only 0x8018)). reflexivity.
  - destruct (proj2 (X18_flag_dump_known_bits_only 0x8021)) as (H1 & _ & H3).
    + discriminate.
    + split; [exact H1 | exact H3].
Defined.



(** ** The cluster rows *)








(** ** Timestamps and the header-stored content offset *)

(** X21.  When an attribute's header stores the content offset 24, the
    fixed offset of [parse_time] and the header-stored offset agree: the
    integer that [parse_time] converts for the range [(a, b)] is the one
    read from bytes [a .. b - 1] of the content slice. *)
Theorem X21_time_read_from_content_when_offset_is_24 (attribute : bytes)
  (attr_end a b : Z) :
  unpack (slice attribute 20 22) false = 24 ->
  0 <= a -> a <= b -> 24 + b <= len attribute -> len attribute <= attr_end + 1 ->
  time_value attribute (a, b) = unpack (slice (content_of attribute attr_end) a b) false.
Proof. apply time_value_at_offset_24. Qed.

Lemma X21_time_read_from_content_when_offset_is_24_witness :
  time_value (slice sample_mft_entry 56 128) (8, 16)
  = unpack (slice (content_of (slice sample_mft_entry 56 128) 128) 8 16) false.
Proof.
  apply (X21_time_read_from_content_when_offset_is_24 (slice sample_mft_entry 56 128) 128 8 16).
  - reflexivity.
  - lia.
  - lia.
  - vm_compute. discriminate.
  - vm_compute. discriminate.
Defined.

(** ** The entry header: ranges *)

(** X22.  The header parser never fails and echoes the address; the
    sequence number and the link count are 16-bit values and the $LogFile
    sequence number a 64-bit value; fields missing from a short buffer
    read as 0, so a buffer of at most 22 bytes is reported as not
    allocated. *)
Theorem X22_entry_header_ranges (address : Z) (entry : bytes) :
  let h := parse_entry_header address entry in
  header_dict.address h = address
  /\ 0 <= header_dict.sequence h < 2 ^ 16
  /\ 0 <= header_dict.logfile_seq_num h < 2 ^ 64
  /\ 0 <= header_dict.links h < 2 ^ 16
  /\ (len entry <= 22 -> header_dict.allocated h = false).
Proof.
  cbn [parse_entry_header header_dict.address header_dict.sequence
       header_dict.logfile_seq_num header_dict.links header_dict.allocated].
  unfold unpack.
  assert (Hb : forall i n, 0 <= i -> 0 <= n ->
                 0 <= from_bytes_little (slice entry i (i + n)) < 2 ^ (8 * n)).
  { intros i n Hi Hn0.
    pose proof (from_bytes_little_bound (slice entry i (i + n))) as H.
    pose proof (slice_len_le entry i (i + n) Hi ltac:(lia)) as Hl.
    pose proof (len_nonneg (slice entry i (i + n))).
    split; [lia|]. eapply Z.lt_le_trans; [apply H|].
    apply Z.pow_le_mono_r; lia. }
  split; [reflexivity|]. split; [exact (Hb 16 2 ltac:(lia) ltac:(lia))|].
  split; [exact (Hb 8 8 ltac:(lia) ltac:(lia))|].
  split; [exact (Hb 18 2 ltac:(lia) ltac:(lia))|].
  intros Hshort. rewrite slice_past_end by lia. reflexivity.
Qed.

Lemma X22_entry_header_ranges_witness :
  header_dict.allocated (parse_entry_header 9 [x46; x49; x4c; x45]) = false.
Proof.
  apply (X22_entry_header_ranges 9 [x46; x49; x4c; x45]). vm_compute. discriminate.
Defined.

(** ** The entry assembler: the order of the attributes *)

Section AssemblyOrder.

Variable float : Type.
Variable true_div : Z -> Z -> result float.
Variable int_of_float : float -> result Z.
Variable datetime : Type.
Variable fromtimestamp : float -> result datetime.
Variable epoch_plus_seconds : Z -> result datetime.
Variable strftime_hms : datetime -> string.
Variable decode_utf_16_le : bytes -> result string.

Lemma parse_std_info_of_end (attribute : bytes) (std_info_end : Z) (d : std_info_dict.t) :
  parse_std_info_of float true_div int_of_float datetime fromtimestamp
    epoch_plus_seconds strftime_hms attribute std_info_end = Ok d ->
  std_info_dict.std_info_end d = std_info_end.
Proof.
  unfold parse_std_info_of.
  repeat match goal with
         | |- context [bind ?r _] => destruct r; cbn [bind]; [|discriminate]
         end.
  now intros [= <-].
Qed.

Lemma parse_file_name_of_end (attribute : bytes) (file_name_end : Z)
  (d : file_name_dict.t) :
  parse_file_name_of float true_div int_of_float datetime fromtimestamp
    epoch_plus_seconds strftime_hms decode_utf_16_le attribute file_name_end = Ok d ->
  file_name_dict.file_name_end d = file_name_end.
Proof.
  unfold parse_file_name_of.
  repeat match goal with
         | |- context [bind ?r _] => destruct r; cbn [bind]; [|discriminate]
         end.
  now intros [= <-].
Qed.

(** X23.  A decoded entry was assembled from three attributes found one
    after the other in the corrected buffer: $STANDARD_INFORMATION from
    offset [0x38], $FILE_NAME from where that one ended, $DATA from where
    $FILE_NAME ended; the three end offsets are strictly increasing.  An
    entry that stores these attributes in another order is not decoded. *)
Theorem X23_attributes_found_in_increasing_order (fuel : nat) (address : Z)
  (entry : bytes) (d : mft_entry_dict.t) :
  decode_entry float true_div int_of_float datetime fromtimestamp epoch_plus_seconds
    strftime_hms decode_utf_16_le fuel address entry = Some (Return d) ->
  let std_info_end := std_info_dict.std_info_end (mft_entry_dict.std_info d) in
  let file_name_end := file_name_dict.file_name_end (mft_entry_dict.file_name d) in
  exists fixed std_info_attr file_name_attr data_attr data_end,
    apply_fixup entry = Ok fixed
    /\ mft_entry_dict.header d = parse_entry_header address fixed
    /\ get_attr_by_id fuel 0x10 fixed 0x38 = Some (std_info_attr, std_info_end)
    /\ get_attr_by_id fuel 0x30 fixed std_info_end = Some (file_name_attr, file_name_end)
    /\ get_attr_by_id fuel 0x80 fixed file_name_end = Some (data_attr, data_end)
    /\ parse_data_of fuel data_attr = Some (Ok (mft_entry_dict.data d))
    /\ 0x38 < std_info_end /\ std_info_end < file_name_end /\ file_name_end < data_end.
Proof.
  unfold decode_entry.
  destruct (apply_fixup entry) as [fixed|e]; [|discriminate].
  unfold parse_std_info_attr.
  destruct (get_attr_by_id fuel 16 fixed 56) as [[a1 e1]|] eqn:G1; [|discriminate].
  destruct (parse_std_info_of _ _ _ _ _ _ _ a1 e1) as [si|e] eqn:P1; [|discriminate].
  unfold parse_file_name_attr.
  rewrite (parse_std_info_of_end _ _ _ P1).
  destruct (get_attr_by_id fuel 48 fixed e1) as [[a2 e2]|] eqn:G2; [|discriminate].
  destruct (parse_file_name_of _ _ _ _ _ _ _ _ a2 e2) as [fn|e] eqn:P2; [|discriminate].
  unfold parse_data_attr.
  rewrite (parse_file_name_of_end _ _ _ P2).
  destruct (get_attr_by_id fuel 128 fixed e2) as [[a3 e3]|] eqn:G3; [|discriminate].
  destruct (parse_data_of fuel a3) as [[dd|e]|] eqn:P3; try discriminate.
  intros [= <-]. cbn [mft_entry_dict.std_info mft_entry_dict.file_name
                      mft_entry_dict.header mft_entry_dict.data].
  rewrite (parse_std_info_of_end _ _ _ P1), (parse_file_name_of_end _ _ _ P2).
  assert (N1 : 16 <> 0) by discriminate.
  assert (N2 : 48 <> 0) by discriminate.
  assert (N3 : 128 <> 0) by discriminate.
  assert (H0 : 0 <= 56) by lia.
  destruct (get_attr_by_id_result _ _ _ _ _ _ N1 H0 G1) as (q1 & Hq1 & _).
  assert (H1 : 0 <= e1) by lia.
  destruct (get_attr_by_id_result _ _ _ _ _ _ N2 H1 G2) as (q2 & Hq2 & _).
  assert (H2 : 0 <= e2) by lia.
  destruct (get_attr_by_id_result _ _ _ _ _ _ N3 H2 G3) as (q3 & Hq3 & _).
  exists fixed, a1, a2, a3, e3. repeat split; auto; lia.
Qed.

End AssemblyOrder.

Lemma X23_attributes_found_in_increasing_order_witness :
  exists d fixed std_info_attr file_name_attr data_attr data_end,
    decode_entry Z (fun a b => Ok (a / b)) (@Ok Z) Z (@Ok Z) (@Ok Z) (fun _ => EmptyString)
      (fun _ => Ok EmptyString) 3 1 sample_mft_entry = Some (Return d)
    /\ apply_fixup sample_mft_entry = Ok fixed
    /\ get_attr_by_id 3 0x10 fixed 0x38 = Some (std_info_attr, 128)
    /\ get_attr_by_id 3 0x30 fixed 128 = Some (file_name_attr, 224)
    /\ get_attr_by_id 3 0x80 fixed 224 = Some (data_attr, data_end)
    /\ 224 < data_end.
Proof.
  destruct (decode_entry Z (fun a b => Ok (a / b)) (@Ok Z) Z (@Ok Z) (@Ok Z) (fun _ => EmptyString)
              (fun _ => Ok EmptyString) 3 1 sample_mft_entry) as [[d|e]|] eqn:E;
    [|vm_compute in E; discriminate E | vm_compute in E; discriminate E].
  pose proof (X23_attributes_found_in_increasing_order Z (fun a b => Ok (a / b)) (@Ok Z) Z (@Ok Z)
                (@Ok Z) (fun _ => EmptyString) (fun _ => Ok EmptyString) 3 1
                sample_mft_entry d E) as H.
  cbv zeta in H.
  destruct H as (fixed & a1 & a2 & a3 & e3 & Hf & _ & G1 & G2 & G3 & _ & _ & _ & Hlt).
  assert (Hd : d = match decode_entry Z (fun a b => Ok (a / b)) (@Ok Z) Z (@Ok Z) (@Ok Z)
                           (fun _ => EmptyString) (fun _ => Ok EmptyString) 3 1
                           sample_mft_entry with
                   | Some (Return d') => d'
                   | _ => d
                   end) by (rewrite E; reflexivity).
  vm_compute in Hd. subst d.
  cbn [mft_entry_dict.std_info mft_entry_dict.file_name std_info_dict.std_info_end
       file_name_dict.file_name_end] in G1, G2, G3, Hlt.
  do 6 eexists. split; [exact E|]. split; [exact Hf|]. split; [exact G1|].
  split; [exact G2|]. split; [exact G3 | exact Hlt].
Defined.

(** ** Timestamps on the interpreter's floating point *)

(** The program's only division is exact on whole seconds and carries on
    a fraction near the next second. *)
Lemma true_div_samples :
  binary64.true_div 9999999 10000000 = Ok (S754_finite false 9007198354021067 (-53))
  /\ binary64.true_div 16000000009999999 10000000
     = Ok (S754_finite false 6710886404194304 (-22))
  /\ binary64.true_div (-116444736000000000) 10000000
     = Ok (S754_finite true 6105057774796800 (-19)).
Proof. repeat split; vm_compute; reflexivity. Qed.

(** Microseconds are rounded to nearest, ties to even, and a result of
    1000000 is carried into the seconds. *)
Lemma timeval_samples :
  binary64.timeval (S754_finite false 9007198354021067 (-53)) = Ok (1, 0)
  /\ binary64.timeval (S754_finite false 6710886404194304 (-22)) = Ok (1600000001, 0)
  /\ binary64.timeval (S754_finite false 6710886404194301 (-22)) = Ok (1600000000, 999999)
  /\ binary64.timeval (S754_finite false 3 (-1)) = Ok (1, 500000)
  /\ binary64.timeval (S754_finite true 1 (-2)) = Ok (-1, 750000)
  /\ binary64.timeval (S754_zero false) = Ok (0, 0)
  /\ binary64.timeval (S754_infinity false) = Raise OverflowError
  /\ binary64.timeval S754_nan = Raise ValueError.
Proof. repeat split; vm_compute; reflexivity. Qed.

Section TimestampFacts.

Variable datetime : Type.
(** The host's conversion of seconds and microseconds after the Unix
    epoch to a local [datetime]. *)
Variable localtime : Z -> Z -> result datetime.
Variable epoch_plus_seconds : Z -> result datetime.
Variable strftime_hms : datetime -> string.

Let decoder :=
  parse_time binary64.float binary64.true_div binary64.int_of_float datetime
    (binary64.fromtimestamp localtime) epoch_plus_seconds strftime_hms.

(** C8.  The timestamp decoder does not always pair the whole seconds
    [(ticks - 116444736000000000) / 10000000] with the fraction
    [ticks mod 10000000].  The fraction is the integer remainder, but the
    seconds come from a floating-point quotient that [fromtimestamp]
    rounds to the nearest microsecond: for the tick count
    116444736009999999, whose whole seconds are 0 and whose fraction is
    9999999, the decoder formats the instant 1 s after the Unix epoch and
    prints the fraction 9999999 behind it; a present-day tick count with
    the same fraction, 132444736009999999, is formatted as second
    1600000001 instead of 1600000000.  A tick count of 0 does not fail in
    the decoder: it takes the branch without [fromtimestamp] and is
    formatted as the fixed epoch moved by the truncated quotient,
    -11644473600 s, with fraction 0. *)
Theorem C8_seconds_rounded_up_beside_the_fraction :
  (time_value time_attr_end_of_second (0, 8) = 116444736009999999
   /\ (116444736009999999 - 116444736000000000) / 10000000 = 0
   /\ fraction_of 116444736009999999 = 9999999
   /\ decoder time_attr_end_of_second (0, 8)
      = (dt <- localtime 1 0 ;; Ok (strftime_hms dt ++ ".999999900 (EDT)")%string))
  /\ (time_value time_attr_2020 (0, 8) = 132444736009999999
      /\ (132444736009999999 - 116444736000000000) / 10000000 = 1600000000
      /\ fraction_of 132444736009999999 = 9999999
      /\ decoder time_attr_2020 (0, 8)
         = (dt <- localtime 1600000001 0 ;;
            Ok (strftime_hms dt ++ ".999999900 (EDT)")%string))
  /\ (time_value time_attr_zero (0, 8) = 0
      /\ (0 - 116444736000000000) / 10000000 = -11644473600
      /\ fraction_of 0 = 0
      /\ decoder time_attr_zero (0, 8)
         = (dt <- epoch_plus_seconds (-11644473600) ;;
            Ok (strftime_hms dt ++ ".000000000 (EDT)")%string)).
Proof.
  assert (Hend : time_value time_attr_end_of_second (0, 8) = 116444736009999999)
    by (vm_compute; reflexivity).
  assert (H2020 : time_value time_attr_2020 (0, 8) = 132444736009999999)
    by (vm_compute; reflexivity).
  assert (Hzero : time_value time_attr_zero (0, 8) = 0) by (vm_compute; reflexivity).
  destruct true_div_samples as (Hd1 & Hd2 & Hd3).
  destruct timeval_samples as (Ht1 & Ht2 & _).
  unfold decoder, parse_time, _localtime_string.
  rewrite Hend, H2020, Hzero.
  split; [|split]; (split; [reflexivity|]); (split; [reflexivity|]);
    (split; [reflexivity|]).
  - change (116444736009999999 - 116444736000000000) with 9999999.
    rewrite Hd1. cbn [bind]. change (0 <? 116444736009999999) with true.
    unfold binary64.fromtimestamp. rewrite Ht1. cbn [bind fst snd].
    destruct (localtime 1 0); reflexivity.
  - change (132444736009999999 - 116444736000000000) with 16000000009999999.
    rewrite Hd2. cbn [bind]. change (0 <? 132444736009999999) with true.
    unfold binary64.fromtimestamp. rewrite Ht2. cbn [bind fst snd].
    destruct (localtime 1600000001 0); reflexivity.
  - change (0 - 116444736000000000) with (-116444736000000000).
    rewrite Hd3. cbn [bind]. change (0 <? 0) with false.
    change (binary64.int_of_float (S754_finite true 6105057774796800 (-19)))
      with (@Ok Z (-11644473600)).
    cbn [bind]. destruct (epoch_plus_seconds (-11644473600)); reflexivity.
Qed.

End TimestampFacts.
